(** * Control de paquetes: business hours, expected hours and KPIs

    A shallow embedding of the pure core of [app.py]: the date utilities
    ([parse_fecha], [norm_fecha_txt], [validar_fechas]), the hour logic
    ([is_business_day], [clamp_to_workday], [business_hours_between],
    [expected_hours], [real_hours]) and the KPI row ([kpis_fila]).

    Conventions of the embedding.
    - A Python exception is a value of [exn]; a function that may raise
      returns [res A].  [OutOfFuel] is not a Python outcome: it is what the
      bounded model of the [while] loop returns when its bound is exhausted,
      and [bhb_loop_enough_fuel] shows that it never is.
    - [float] values are hours.  The hour functions are given twice.  The
      definitions of [Module Binary64] compute on IEEE doubles, operation by
      operation as Python does; they fix the value returned.  The definitions
      outside that module compute on exact rationals [Q], with [round(x, n)]
      as the nearest multiple of [10^-n], ties to even; they serve for the
      order and sum properties, which do not depend on the last bit.  The
      errors raised are the same in both.
    - [str] values are [string]s; a character is a code point below 256.
    - [strftime] is the one of CPython on Linux, where [%Y] is the year in
      decimal with no padding: the text of a date before year 1000 has a
      year of fewer than four digits, which [strptime] does not read.
    - [datetime.date], [datetime.time] and [datetime.datetime] are records of
      their fields; the objects Python builds always satisfy [valid_date] and
      [valid_time].
    - [st.secrets["HOLIDAYS"]] and [datetime.now()] are inputs: the set
      [HOLIDAYS] and the instant [now]. *)

From Stdlib Require Import ZArith QArith Qround Qminmax Lia Lqa ZifyBool Bool List
  String Ascii Wf_nat SpecFloat.
From stdpp Require Import gmap strings.
Import ListNotations.
Open Scope Z_scope.

(** ** Exceptions *)

Inductive exn : Type :=
| ValueError (msg : string)
| TypeError (msg : string)
| OverflowError (msg : string).

Inductive res (A : Type) : Type :=
| Ok (a : A)
| Raise (e : exn)
| OutOfFuel.

Arguments Ok {A} a.
Arguments Raise {A} e.
Arguments OutOfFuel {A}.

Definition res_bind {A B : Type} (c : res A) (k : A -> res B) : res B :=
  match c with
  | Ok a => k a
  | Raise e => Raise e
  | OutOfFuel => OutOfFuel
  end.

Notation "'let*' x ':=' c 'in' k" := (res_bind c (fun x => k))
  (at level 10, x name, c at level 200, k at level 200).

(** [try: ... except Exception: ...] keeps a value and drops any exception. *)
Definition catch_all {A : Type} (c : res A) : option A :=
  match c with
  | Ok a => Some a
  | _ => None
  end.

(** ** Numbers *)

(** Python's [min(a, b)] and [max(a, b)]: the first argument unless the
    second is strictly smaller (resp. larger). *)
Definition py_min (a b : Q) : Q := if Qlt_le_dec b a then b else a.
Definition py_max (a b : Q) : Q := if Qlt_le_dec a b then b else a.

(** Nearest integer, ties to even. *)
Definition round_half_even (x : Q) : Z :=
  let f := Qfloor x in
  match (x - inject_Z f ?= 1 # 2)%Q with
  | Lt => f
  | Gt => f + 1
  | Eq => if Z.even f then f else f + 1
  end.

(** [round(x, ndigits)]. *)
Definition py_round (x : Q) (ndigits : nat) : Q :=
  let s := Z.to_pos (10 ^ Z.of_nat ndigits) in
  Qred (round_half_even (x * inject_Z (Z.pos s)) # s).

(** ** Calendar: [datetime.date] *)

Record date : Type := mk_date { year : Z; month : Z; day : Z }.

Definition MINYEAR : Z := 1.
Definition MAXYEAR : Z := 9999.

Definition is_leap (y : Z) : bool :=
  (y mod 4 =? 0) && (negb (y mod 100 =? 0) || (y mod 400 =? 0)).

Definition DAYS_IN_MONTH (m : Z) : Z :=
  match m with
  | 1 => 31 | 2 => 28 | 3 => 31 | 4 => 30 | 5 => 31 | 6 => 30
  | 7 => 31 | 8 => 31 | 9 => 30 | 10 => 31 | 11 => 30 | 12 => 31
  | _ => -1
  end.

Definition DAYS_BEFORE_MONTH (m : Z) : Z :=
  match m with
  | 1 => 0 | 2 => 31 | 3 => 59 | 4 => 90 | 5 => 120 | 6 => 151
  | 7 => 181 | 8 => 212 | 9 => 243 | 10 => 273 | 11 => 304 | 12 => 334
  | _ => -1
  end.

Definition days_in_month (y m : Z) : Z :=
  if (m =? 2) && is_leap y then 29 else DAYS_IN_MONTH m.

Definition days_before_year (y : Z) : Z :=
  let y := y - 1 in y * 365 + y / 4 - y / 100 + y / 400.

Definition days_before_month (y m : Z) : Z :=
  DAYS_BEFORE_MONTH m + (if (2 <? m) && is_leap y then 1 else 0).

(** The dates Python can build. *)
Definition valid_date (d : date) : bool :=
  (MINYEAR <=? year d) && (year d <=? MAXYEAR)
  && (1 <=? month d) && (month d <=? 12)
  && (1 <=? day d) && (day d <=? days_in_month (year d) (month d)).

(** [date(y, m, d)]: the constructor checks its fields. *)
Definition new_date (y m d : Z) : res date :=
  if valid_date (mk_date y m d) then Ok (mk_date y m d)
  else Raise (ValueError "date value out of range").

(** [d.toordinal()]: 0001-01-01 is day 1. *)
Definition toordinal (d : date) : Z :=
  days_before_year (year d) + days_before_month (year d) (month d) + day d.

(** [d.weekday()]: Monday is 0, Sunday is 6. *)
Definition weekday (d : date) : Z := (toordinal d + 6) mod 7.

(** [a < b] and [a == b] on dates compare (year, month, day). *)
Definition date_ltb (a b : date) : bool :=
  (year a <? year b)
  || ((year a =? year b)
      && ((month a <? month b) || ((month a =? month b) && (day a <? day b)))).

Definition date_eqb (a b : date) : bool :=
  (year a =? year b) && (month a =? month b) && (day a =? day b).

Definition date_leb (a b : date) : bool := date_ltb a b || date_eqb a b.

(** [d + timedelta(days=1)]: the next calendar day, [OverflowError] past
    9999-12-31. *)
Definition date_add_day (d : date) : res date :=
  if day d + 1 <=? days_in_month (year d) (month d)
  then Ok (mk_date (year d) (month d) (day d + 1))
  else if month d + 1 <=? 12
  then Ok (mk_date (year d) (month d + 1) 1)
  else if year d + 1 <=? MAXYEAR
  then Ok (mk_date (year d + 1) 1 1)
  else Raise (OverflowError "date value out of range").

(** ** [datetime.time] and [datetime.datetime] *)

Record time : Type :=
  mk_time { hour : Z; minute : Z; second : Z; microsecond : Z }.

Record datetime : Type := combine { dt_date : date; dt_time : time }.

Definition valid_time (t : time) : bool :=
  (0 <=? hour t) && (hour t <? 24) && (0 <=? minute t) && (minute t <? 60)
  && (0 <=? second t) && (second t <? 60)
  && (0 <=? microsecond t) && (microsecond t <? 1000000).

Definition valid_datetime (dt : datetime) : bool :=
  valid_date (dt_date dt) && valid_time (dt_time dt).

(** Times compare as (hour, minute, second, microsecond). *)
Definition time_ltb (a b : time) : bool :=
  (hour a <? hour b)
  || ((hour a =? hour b)
      && ((minute a <? minute b)
          || ((minute a =? minute b)
              && ((second a <? second b)
                  || ((second a =? second b)
                      && (microsecond a <? microsecond b)))))).


Definition datetime_ltb (a b : datetime) : bool :=
  date_ltb (dt_date a) (dt_date b)
  || (date_eqb (dt_date a) (dt_date b) && time_ltb (dt_time a) (dt_time b)).


(** [a - b] is a [timedelta]; it is kept as its number of microseconds. *)
Definition datetime_sub (a b : datetime) : Z :=
  let days := toordinal (dt_date a) - toordinal (dt_date b) in
  let secs := (hour (dt_time a) - hour (dt_time b)) * 3600
              + (minute (dt_time a) - minute (dt_time b)) * 60
              + (second (dt_time a) - second (dt_time b)) in
  (days * 86400 + secs) * 1000000
  + (microsecond (dt_time a) - microsecond (dt_time b)).

(** [td.total_seconds()]. *)
Definition total_seconds (td : Z) : Q := td # 1000000.

(** ** Text: [str] methods and [int(str)] *)

Definition code (c : ascii) : Z := Z.of_N (N_of_ascii c).

(** [c.isspace()] below 256: tab to carriage return, the separators 0x1c
    to 0x1f, the space, the next-line character 0x85 and the no-break space
    0xa0. *)
Definition is_space (c : ascii) : bool :=
  ((9 <=? code c) && (code c <=? 13)) || ((28 <=? code c) && (code c <=? 32))
  || (code c =? 133) || (code c =? 160).

Fixpoint lstrip (s : string) : string :=
  match s with
  | String c r => if is_space c then lstrip r else s
  | EmptyString => EmptyString
  end.

(** [rstrip] drops the trailing white space: a character is kept when the
    stripped rest is not empty or the character is not white space. *)
Fixpoint rstrip (s : string) : string :=
  match s with
  | String c r =>
      match rstrip r with
      | EmptyString => if is_space c then EmptyString else String c EmptyString
      | r' => String c r'
      end
  | EmptyString => EmptyString
  end.

(** [s.strip()]. *)
Definition strip (s : string) : string := rstrip (lstrip s).

Definition upper_char (c : ascii) : ascii :=
  if (97 <=? code c) && (code c <=? 122)
  then ascii_of_N (Z.to_N (code c - 32)) else c.

(** [s.upper()] on the letters a to z.  The other characters below 256
    are left as they are; none of them is turned by Python into letters
    that occur in a phase name, so the phase found is the same. *)
Fixpoint upper (s : string) : string :=
  match s with
  | String c r => String (upper_char c) (upper r)
  | EmptyString => EmptyString
  end.

Definition digit_val (c : ascii) : option Z :=
  if (48 <=? code c) && (code c <=? 57) then Some (code c - 48) else None.

Definition digit_char (k : Z) : ascii := ascii_of_N (Z.to_N (48 + k)).

(** The digits of a decimal literal after its first digit, with the value
    and the number of digits read so far: single underscores may separate
    digits. *)
Fixpoint int_digits (s : string) (acc : Z) (n : Z) : option (Z * Z) :=
  match s with
  | EmptyString => Some (acc, n)
  | String c r =>
      match digit_val c with
      | Some k => int_digits r (10 * acc + k) (n + 1)
      | None =>
          if Ascii.eqb c "_" then
            match r with
            | String c' r' =>
                match digit_val c' with
                | Some k => int_digits r' (10 * acc + k) (n + 1)
                | None => None
                end
            | EmptyString => None
            end
          else None
      end
  end.

Definition INT_MAX_STR_DIGITS : Z := 4300.

Definition invalid_literal : exn :=
  ValueError "invalid literal for int() with base 10".

(** [int(s)] for a [str]: white space around, an optional sign, decimal
    digits; at most [INT_MAX_STR_DIGITS] digits. *)
Definition int_of_str (s : string) : res Z :=
  let s := strip s in
  let '(neg, body) :=
    match s with
    | String "-" r => (true, r)
    | String "+" r => (false, r)
    | _ => (false, s)
    end in
  match body with
  | String c r =>
      match digit_val c with
      | Some k =>
          match int_digits r k 1 with
          | Some (v, n) =>
              if INT_MAX_STR_DIGITS <? n
              then Raise (ValueError "Exceeds the limit (4300 digits) for integer string conversion")
              else Ok (if neg then - v else v)
          | None => Raise invalid_literal
          end
      | None => Raise invalid_literal
      end
  | EmptyString => Raise invalid_literal
  end.

(** The values a unit count may hold: [None], an [int] or a [str]. *)
Inductive pyval : Type :=
| PyNone
| PyInt (z : Z)
| PyStr (s : string).

(** Truth value of [n] in [n or 0]. *)
Definition truthy (v : pyval) : bool :=
  match v with
  | PyNone => false
  | PyInt z => negb (z =? 0)
  | PyStr s => negb (String.eqb s "")
  end.

(** [int(n or 0)]. *)
Definition int_or_0 (v : pyval) : res Z :=
  if truthy v then
    match v with
    | PyInt z => Ok z
    | PyStr s => int_of_str s
    | PyNone => Ok 0
    end
  else Ok 0.

(** ** [d.strftime("%Y-%m-%d")] and [datetime.strptime] *)

Definition pad2 (n : Z) : string :=
  String (digit_char (n / 10 mod 10)) (String (digit_char (n mod 10)) "").

Definition pad4 (n : Z) : string :=
  String (digit_char (n / 1000 mod 10))
    (String (digit_char (n / 100 mod 10)) (pad2 n)).

(** [%Y] as the C library of Linux prints it: the year in decimal, with no
    padding.  From year 1000 on these are the four digits every platform
    prints. *)
Definition year_text (y : Z) : string :=
  if y <? 10 then String (digit_char (y mod 10)) ""
  else if y <? 100 then pad2 y
  else if y <? 1000 then String (digit_char (y / 100 mod 10)) (pad2 y)
  else pad4 y.

(** [d.strftime("%Y-%m-%d")]: month and day on two digits. *)
Definition strftime_ymd (d : date) : string :=
  year_text (year d) +:+ "-" +:+ pad2 (month d) +:+ "-" +:+ pad2 (day d).

(** [strptime] compiles a format into a regular expression and takes the
    first match of a backtracking search.  A pattern is modelled by the list
    of its matches at the head of the text, in the order the search tries
    them: each match gives the number read and the rest of the text. *)
Definition pattern : Type := string -> list (Z * string).

Definition two_digits (p1 p2 : Z -> bool) : pattern := fun s =>
  match s with
  | String c1 (String c2 r) =>
      match digit_val c1, digit_val c2 with
      | Some a, Some b => if p1 a && p2 b then [(10 * a + b, r)] else []
      | _, _ => []
      end
  | _ => []
  end.

Definition one_digit (p : Z -> bool) : pattern := fun s =>
  match s with
  | String c r =>
      match digit_val c with
      | Some a => if p a then [(a, r)] else []
      | None => []
      end
  | _ => []
  end.

Definition space_digit (p : Z -> bool) : pattern := fun s =>
  match s with
  | String " " r => one_digit p r
  | _ => []
  end.

Definition any_digit (a : Z) : bool := true.

(** [%Y] is [\d\d\d\d]. *)
Definition re_Y : pattern := fun s =>
  match s with
  | String c1 (String c2 (String c3 (String c4 r))) =>
      match digit_val c1, digit_val c2, digit_val c3, digit_val c4 with
      | Some a, Some b, Some c, Some d =>
          [(1000 * a + 100 * b + 10 * c + d, r)]
      | _, _, _, _ => []
      end
  | _ => []
  end.

(** [%m] is [1[0-2]|0[1-9]|[1-9]]. *)
Definition re_m : pattern := fun s =>
  two_digits (Z.eqb 1) (fun b => b <=? 2) s
  ++ two_digits (Z.eqb 0) (Z.leb 1) s
  ++ one_digit (Z.leb 1) s.

(** [%d] is [3[0-1]|[1-2]\d|0[1-9]|[1-9]| [1-9]]. *)
Definition re_d : pattern := fun s =>
  two_digits (Z.eqb 3) (fun b => b <=? 1) s
  ++ two_digits (fun a => (1 <=? a) && (a <=? 2)) any_digit s
  ++ two_digits (Z.eqb 0) (Z.leb 1) s
  ++ one_digit (Z.leb 1) s
  ++ space_digit (Z.leb 1) s.

(** A literal character of the format. *)
Definition lit (c : ascii) (s : string) : list string :=
  match s with
  | String c' r => if Ascii.eqb c c' then [r] else []
  | EmptyString => []
  end.

(** The three formats of [parse_fecha]; a match is (year, month, day) and
    the text left over. *)
Inductive date_format : Type := Y_m_d | d_m_Y | m_d_Y.

Definition format_regex (fmt : date_format) (s : string)
  : list (Z * Z * Z * string) :=
  match fmt with
  | Y_m_d =>
      '(y, r) ← re_Y s; r ← lit "-" r; '(m, r) ← re_m r; r ← lit "-" r;
      '(d, r) ← re_d r; [(y, m, d, r)]
  | d_m_Y =>
      '(d, r) ← re_d s; r ← lit "/" r; '(m, r) ← re_m r; r ← lit "/" r;
      '(y, r) ← re_Y r; [(y, m, d, r)]
  | m_d_Y =>
      '(m, r) ← re_m s; r ← lit "/" r; '(d, r) ← re_d r; r ← lit "/" r;
      '(y, r) ← re_Y r; [(y, m, d, r)]
  end.

(** [datetime.strptime(s, fmt).date()]: the text must match the format
    from its start, nothing may be left over, and the fields must make a
    date. *)
Definition strptime (s : string) (fmt : date_format) : res date :=
  match format_regex fmt s with
  | [] => Raise (ValueError "time data does not match format")
  | (y, m, d, r) :: _ =>
      if String.eqb r "" then new_date y m d
      else Raise (ValueError "unconverted data remains")
  end.

(** ** Date utilities of the application *)

(** [not s] for [s : str | None]. *)
Definition falsy (s : option string) : bool :=
  match s with
  | None => true
  | Some s => String.eqb s ""
  end.

(** The first format of the list that parses. *)
Fixpoint first_format (s : string) (fmts : list date_format) : option date :=
  match fmts with
  | [] => None
  | fmt :: fmts' =>
      match catch_all (strptime s fmt) with
      | Some d => Some d
      | None => first_format s fmts'
      end
  end.

Definition parse_fecha (s : option string) : option date :=
  match s with
  | None => None
  | Some s =>
      if String.eqb s "" then None
      else first_format (strip s) [Y_m_d; d_m_Y; m_d_Y]
  end.

Definition fecha_invalida : exn :=
  Eval cbv in
    ValueError
      ("Fecha inv" +:+ String (ascii_of_nat 225)
                         "lida. Use AAAA-MM-DD o DD/MM/AAAA.").

Definition salida_antes : exn :=
  ValueError "La salida no puede ser antes de la entrada.".

Definition norm_fecha_txt (s : option string) : res (option string) :=
  match s with
  | None => Ok None
  | Some t =>
      if String.eqb (strip t) "" then Ok None
      else
        match parse_fecha s with
        | None => Raise fecha_invalida
        | Some d => Ok (Some (strftime_ymd d))
        end
  end.

Definition no_order_with_none : exn :=
  TypeError "'<' not supported between instances of 'datetime.date' and 'NoneType'".

(** [d_sal < d_ent] raises [TypeError] when [d_ent] is [None]. *)
Definition date_lt_opt (a : date) (b : option date) : res bool :=
  match b with
  | Some b => Ok (date_ltb a b)
  | None => Raise no_order_with_none
  end.

Definition validar_fechas (fent_txt fsal_txt : option string)
  : res (option string * option string) :=
  let* f_ent := norm_fecha_txt fent_txt in
  let* f_sal := if falsy fsal_txt then Ok None else norm_fecha_txt fsal_txt in
  let d_ent := parse_fecha f_ent in
  let d_sal := if falsy f_sal then None else parse_fecha f_sal in
  match d_sal with
  | Some ds =>
      let* before := date_lt_opt ds d_ent in
      if before then Raise salida_antes else Ok (f_ent, f_sal)
  | None => Ok (f_ent, f_sal)
  end.

(** ** Hour logic *)

Definition WORK_HOURS : Q := 8.5.

(** [_t("08:00")] and [_t("16:30")]. *)
Definition HORA_INICIO : time := mk_time 8 0 0 0.
Definition HORA_FIN : time := mk_time 16 30 0 0.

Definition RATIOS_H_PREDIO : gmap string Q :=
  {[ "CAMPO" := (5 * 8.5) / 30;
     "ENTREGAS" := 8.5 / 80;
     "JURIDICO" := 8.5 / 30;
     "POSTCAMPO" := 1 / 4.4 ]}%Q.

Definition MIN_HORAS : gmap string Q :=
  {[ "CAMPO" := 1; "ENTREGAS" := 0.5; "JURIDICO" := 0.5; "POSTCAMPO" := 0.5 ]}%Q.

(** [a > b] on hours. *)
Definition Qgtb (a b : Q) : bool := negb (Qle_bool a b).

Section Horas.

(** [HOLIDAYS = set(st.secrets.get("HOLIDAYS", []))]. *)
Variable HOLIDAYS : gset string.

Definition is_business_day (d : date) : bool :=
  if 5 <=? weekday d then false
  else if bool_decide (strftime_ymd d ∈ HOLIDAYS) then false
  else true.

Definition clamp_to_workday (dt : datetime) : datetime :=
  let start := combine (dt_date dt) HORA_INICIO in
  let end_ := combine (dt_date dt) HORA_FIN in
  if datetime_ltb dt start then start
  else if datetime_ltb end_ dt then end_
  else dt.

(** The [while cur < end_dt.date()] loop, at most [fuel] rounds. *)
Fixpoint bhb_loop (fuel : nat) (stop cur : date) (total : Q) : res Q :=
  if date_ltb cur stop then
    match fuel with
    | O => OutOfFuel
    | S fuel' =>
        let total :=
          if is_business_day cur then (total + WORK_HOURS)%Q else total in
        let* cur' := date_add_day cur in
        bhb_loop fuel' stop cur' total
    end
  else Ok total.

(** The loop is run with the number of days from [d0] to the end date as
    its bound. *)
Definition business_hours_between (d0 : option date)
  (end_dt : option datetime) : res Q :=
  match d0, end_dt with
  | Some d0, Some end_dt =>
      let stop := dt_date end_dt in
      let* total :=
        bhb_loop (Z.to_nat (toordinal stop - toordinal d0)) stop d0 0%Q in
      let total :=
        if is_business_day (dt_date end_dt) then
          let start_dt := combine (dt_date end_dt) HORA_INICIO in
          let end_dt_c := clamp_to_workday end_dt in
          let delta :=
            (total_seconds (datetime_sub end_dt_c start_dt) / 3600)%Q in
          if Qlt_le_dec 0 delta then (total + py_min delta WORK_HOURS)%Q
          else total
        else total in
      Ok (py_round total 2)
  | _, _ => Ok 0%Q
  end.

Definition real_hours (now : datetime) (f_ent f_sal : option string)
  : res Q :=
  let d0 := parse_fecha f_ent in
  let end_dt :=
    match (if falsy f_sal then None else parse_fecha f_sal) with
    | Some d => combine d HORA_FIN
    | None => now
    end in
  match d0 with
  | None => Ok 0%Q
  | Some _ => business_hours_between d0 (Some end_dt)
  end.

End Horas.

(** The integers a double can hold: up to the last one that does not round
    to [2^1024]. *)
Definition FLOAT_LIMIT : Z := 2 ^ 1024 - 2 ^ 970.

Definition int_too_large : exn :=
  OverflowError "int too large to convert to float".

(** An [int] turned into a [float], as [n * x] does with [n]. *)
Definition int_to_float (n : Z) : res Q :=
  if Z.abs n <? FLOAT_LIMIT then Ok (inject_Z n) else Raise int_too_large.

Definition expected_hours (fase : option string) (n : pyval) : res Q :=
  let fase := upper (default "" fase) in
  let* k := int_or_0 n in
  let n := Z.max k 0 in
  let* x := int_to_float n in
  let h := (x * default 0 (RATIOS_H_PREDIO !! fase))%Q in
  let h := py_max h (default 0%Q (MIN_HORAS !! fase)) in
  Ok (py_round h 2).

Definition kpis_fila (HOLIDAYS : gset string) (now : datetime)
  (fase : option string) (n : pyval) (f_ent f_sal : option string)
  : res (Q * Q * Q * bool) :=
  let* h_esp := expected_hours fase n in
  let* h_real := real_hours HOLIDAYS now f_ent f_sal in
  let prog :=
    if Qeq_bool h_esp 0 then 0%Q
    else py_round (h_real / h_esp * 100) 1 in
  Ok (h_esp, py_round h_real 2, prog, Qgtb h_real h_esp).

(** ** Notions used to state the properties *)

(** [days_from cur stop l]: [l] lists the days the loop meets when it walks
    from [cur] to [stop], one [date_add_day] at a time. *)
Inductive days_from : date -> date -> list date -> Prop :=
| days_from_nil d : days_from d d []
| days_from_cons d d' stop l :
    date_ltb d stop = true ->
    date_add_day d = Ok d' ->
    days_from d' stop l ->
    days_from d stop (d :: l).

Definition Qsum (l : list Q) : Q := fold_right Qplus 0%Q l.

(** One round of the loop on the running total. *)
Definition add_day_hours (HOLIDAYS : gset string) (total : Q) (d : date) : Q :=
  if is_business_day HOLIDAYS d then (total + WORK_HOURS)%Q else total.

(** The hours a list of days is worth: [WORK_HOURS] for each business day. *)
Definition full_day_hours (HOLIDAYS : gset string) (l : list date) : Q :=
  Qsum (map (fun _ => WORK_HOURS) (List.filter (is_business_day HOLIDAYS) l)).

(** What the last day adds to the total. *)
Definition end_day_hours (HOLIDAYS : gset string) (end_dt : datetime) : Q :=
  if is_business_day HOLIDAYS (dt_date end_dt) then
    let start_dt := combine (dt_date end_dt) HORA_INICIO in
    let end_dt_c := clamp_to_workday end_dt in
    let delta := (total_seconds (datetime_sub end_dt_c start_dt) / 3600)%Q in
    if Qlt_le_dec 0 delta then py_min delta WORK_HOURS else 0%Q
  else 0%Q.

(** Time of day in microseconds since midnight. *)
Definition time_us (t : time) : Z :=
  ((hour t * 60 + minute t) * 60 + second t) * 1000000 + microsecond t.

(** Hours from the start of the work window to [t] clamped into the
    window. *)
Definition elapsed_hours (t : time) : Q :=
  let c := Z.min (Z.max (time_us t) (time_us HORA_INICIO)) (time_us HORA_FIN) in
  (c - time_us HORA_INICIO) # 3600000000.

(** The partial contribution of an end instant at time [t] on a business
    day: [min(elapsed, daily_hours)], only when positive. *)
Definition partial_hours (t : time) : Q :=
  if Qlt_le_dec 0 (elapsed_hours t)
  then Qmin (elapsed_hours t) WORK_HOURS else 0%Q.

(** A blank or absent text. *)
Definition blank (s : option string) : bool :=
  match s with
  | None => true
  | Some t => String.eqb (strip t) ""
  end.

(** The text is no date, or it is a date of year 1000 or later: the dates
    whose text [YYYY-MM-DD] has its year on four digits. *)
Definition four_digit_year (s : option string) : bool :=
  match parse_fecha s with
  | Some d => 1000 <=? year d
  | None => true
  end.

(** Lexicographic weight of a date: it grows with every calendar day. *)
Definition date_key (d : date) : Z := (year d * 12 + month d) * 31 + day d.

(** The productivity table read whatever the case of the phase name: the
    hours per unit and the minimum hours of a phase, 0 and 0 for an unknown
    phase. *)
Definition phase_productivity (fase : string) : Q * Q :=
  let f := upper fase in
  if String.eqb f "CAMPO" then (17 # 12, 1)%Q
  else if String.eqb f "ENTREGAS" then (17 # 160, 1 # 2)%Q
  else if String.eqb f "JURIDICO" then (17 # 60, 1 # 2)%Q
  else if String.eqb f "POSTCAMPO" then (5 # 22, 1 # 2)%Q
  else (0, 0)%Q.

(** The unit count as a non-negative integer: 0 when absent or empty, the
    value of an integer or of a text that is a decimal integer literal,
    negative values counted as 0; any other text is an error. *)
Definition unit_count (n : pyval) : res Z :=
  match n with
  | PyNone => Ok 0
  | PyInt z => Ok (Z.max z 0)
  | PyStr s =>
      if String.eqb s "" then Ok 0
      else let* z := int_of_str s in Ok (Z.max z 0)
  end.


(** ** The form check of the interface *)

(** [str(e)] for an exception raised with one message. *)
Definition exn_str (e : exn) : string :=
  match e with
  | ValueError msg => msg
  | TypeError msg => msg
  | OverflowError msg => msg
  end.

(** [_validar()] reads the widgets [in_id], [in_lote], [in_muni], [in_fent]
    and [in_fsal], which hold texts; they are its arguments here.  It
    returns [(False, message)] or [(True, (f_ent, f_sal))]. *)
Definition _validar (in_id in_lote in_muni in_fent in_fsal : string)
  : res (bool * (string + (option string * option string))) :=
  if String.eqb in_id "" then Ok (false, inl "El ID es obligatorio.")
  else if String.eqb in_lote "" then Ok (false, inl "El Lote es obligatorio.")
  else if String.eqb in_muni ""
  then Ok (false, inl "El Municipio es obligatorio.")
  else
    match validar_fechas (Some in_fent) (Some in_fsal) with
    | Ok data => Ok (true, inr data)
    | Raise e => Ok (false, inl (exn_str e))
    | OutOfFuel => OutOfFuel
    end.

(** ** Texts used to state the properties of [parse_fecha] *)

(** A date written day first, [DD/MM/YYYY], and month first,
    [MM/DD/YYYY]. *)
Definition dmy_text (d : date) : string :=
  pad2 (day d) +:+ "/" +:+ pad2 (month d) +:+ "/" +:+ pad4 (year d).

Definition mdy_text (d : date) : string :=
  pad2 (month d) +:+ "/" +:+ pad2 (day d) +:+ "/" +:+ pad4 (year d).

(** ** The hour logic on IEEE doubles

    A double is a [spec_float] of precision 53 and maximal exponent 1024;
    sums, products and quotients are the correctly rounded operations of
    [SpecFloat].  A literal such as [8.5] is the double nearest to the
    decimal written. *)
Module Binary64.

Definition float : Type := spec_float.
Definition prec : Z := 53.
Definition emax : Z := 1024.

Definition fadd : float -> float -> float := SFadd prec emax.
Definition fmul : float -> float -> float := SFmul prec emax.
Definition fdiv : float -> float -> float := SFdiv prec emax.

(** [a < b] on doubles. *)
Definition fltb : float -> float -> bool := SFltb.

Definition zero : float := S754_zero false.

(** An integer as a binary number that is not rounded yet. *)
Definition exact (z : Z) : float :=
  match z with
  | Z0 => S754_zero false
  | Zpos m => S754_finite false m 0
  | Zneg m => S754_finite true m 0
  end.

(** The double nearest to [p / q], ties to even, for [0 < q]: the value of
    a decimal literal and of the true division of two integers. *)
Definition nearest (p q : Z) : float := SFdiv prec emax (exact p) (exact q).

(** The double nearest to an integer. *)
Definition of_Z (n : Z) : float := binary_normalize prec emax n 0 false.

(** An [int] turned into a [float], as [n * x] does with [n]. *)
Definition of_int (n : Z) : res float :=
  if Z.abs n <? FLOAT_LIMIT then Ok (of_Z n) else Raise int_too_large.

(** The exact value of a finite double. *)
Definition to_Q (x : float) : Q :=
  match x with
  | S754_finite s m e =>
      let v := if 0 <=? e then inject_Z (Z.pos m * 2 ^ e)
               else Z.pos m # Z.to_pos (2 ^ (- e)) in
      if s then (- v)%Q else v
  | _ => 0%Q
  end.

(** [round(x, ndigits)] for [0 <= ndigits]: the exact value of [x] is
    rounded to the nearest multiple of [10^-ndigits], ties to even, and the
    double nearest to that decimal is returned; a result of zero keeps the
    sign of [x], and zeros, infinities and NaN are returned as they are. *)
Definition py_round (x : float) (ndigits : nat) : float :=
  match x with
  | S754_finite s m e =>
      let p := 10 ^ Z.of_nat ndigits in
      let k := round_half_even (to_Q x * inject_Z p) in
      if k =? 0 then S754_zero s else nearest k p
  | _ => x
  end.

(** [min(a, b)] and [max(a, b)]: the first argument unless the second is
    strictly smaller (resp. larger). *)
Definition py_min (a b : float) : float := if fltb b a then b else a.
Definition py_max (a b : float) : float := if fltb a b then b else a.

Definition WORK_HOURS : float := nearest 85 10.

Definition RATIOS_H_PREDIO : gmap string float :=
  {[ "CAMPO" := fdiv (fmul (of_Z 5) (nearest 85 10)) (nearest 300 10);
     "ENTREGAS" := fdiv (nearest 85 10) (nearest 800 10);
     "JURIDICO" := fdiv (nearest 85 10) (nearest 300 10);
     "POSTCAMPO" := fdiv (nearest 10 10) (nearest 44 10) ]}.

Definition MIN_HORAS : gmap string float :=
  {[ "CAMPO" := nearest 10 10; "ENTREGAS" := nearest 5 10;
     "JURIDICO" := nearest 5 10; "POSTCAMPO" := nearest 5 10 ]}.

(** [td.total_seconds()]: the microseconds divided by [10**6]. *)
Definition total_seconds (td : Z) : float := nearest td 1000000.

(** The [while cur < end_dt.date()] loop, at most [fuel] rounds. *)
Fixpoint bhb_loop (HOLIDAYS : gset string) (fuel : nat) (stop cur : date)
  (total : float) : res float :=
  if date_ltb cur stop then
    match fuel with
    | O => OutOfFuel
    | S fuel' =>
        let total :=
          if is_business_day HOLIDAYS cur then fadd total WORK_HOURS
          else total in
        let* cur' := date_add_day cur in
        bhb_loop HOLIDAYS fuel' stop cur' total
    end
  else Ok total.

Definition business_hours_between (HOLIDAYS : gset string)
  (d0 : option date) (end_dt : option datetime) : res float :=
  match d0, end_dt with
  | Some d0, Some end_dt =>
      let stop := dt_date end_dt in
      let* total :=
        bhb_loop HOLIDAYS (Z.to_nat (toordinal stop - toordinal d0)) stop d0
          zero in
      let total :=
        if is_business_day HOLIDAYS (dt_date end_dt) then
          let start_dt := combine (dt_date end_dt) HORA_INICIO in
          let end_dt_c := clamp_to_workday end_dt in
          let delta :=
            fdiv (total_seconds (datetime_sub end_dt_c start_dt))
              (nearest 36000 10) in
          if fltb zero delta then fadd total (py_min delta WORK_HOURS)
          else total
        else total in
      Ok (py_round total 2)
  | _, _ => Ok zero
  end.

Definition expected_hours (fase : option string) (n : pyval) : res float :=
  let fase := upper (default "" fase) in
  let* k := int_or_0 n in
  let n := Z.max k 0 in
  let* x := of_int n in
  let h := fmul x (default zero (RATIOS_H_PREDIO !! fase)) in
  let h := py_max h (default zero (MIN_HORAS !! fase)) in
  Ok (py_round h 2).

Definition real_hours (HOLIDAYS : gset string) (now : datetime)
  (f_ent f_sal : option string) : res float :=
  let d0 := parse_fecha f_ent in
  let end_dt :=
    match (if falsy f_sal then None else parse_fecha f_sal) with
    | Some d => combine d HORA_FIN
    | None => now
    end in
  match d0 with
  | None => Ok zero
  | Some _ => business_hours_between HOLIDAYS d0 (Some end_dt)
  end.

(** [h_esp == 0]: true of both zeros. *)
Definition is_zero (x : float) : bool := SFeqb x zero.

Definition kpis_fila (HOLIDAYS : gset string) (now : datetime)
  (fase : option string) (n : pyval) (f_ent f_sal : option string)
  : res (float * float * float * bool) :=
  let* h_esp := expected_hours fase n in
  let* h_real := real_hours HOLIDAYS now f_ent f_sal in
  let prog :=
    if is_zero h_esp then zero
    else py_round (fmul (fdiv h_real h_esp) (of_Z 100)) 1 in
  Ok (h_esp, py_round h_real 2, prog, fltb h_esp h_real).

(** *** Notions used to state the properties *)

(** The productivity table read whatever the case of the phase name: the
    hours per unit and the minimum hours of a phase, 0 and 0 for an unknown
    phase. *)
Definition phase_productivity (fase : string) : float * float :=
  let f := upper fase in
  if String.eqb f "CAMPO"
  then (fdiv (fmul (of_Z 5) (nearest 85 10)) (nearest 300 10), nearest 10 10)
  else if String.eqb f "ENTREGAS"
  then (fdiv (nearest 85 10) (nearest 800 10), nearest 5 10)
  else if String.eqb f "JURIDICO"
  then (fdiv (nearest 85 10) (nearest 300 10), nearest 5 10)
  else if String.eqb f "POSTCAMPO"
  then (fdiv (nearest 10 10) (nearest 44 10), nearest 5 10)
  else (zero, zero).

(** The sum of a list of doubles, from the left. *)
Definition fsum (l : list float) : float := fold_left fadd l zero.

(** The hours a list of days is worth: [WORK_HOURS] for each business
    day. *)
Definition full_day_hours (HOLIDAYS : gset string) (l : list date) : float :=
  fsum (map (fun _ => WORK_HOURS) (List.filter (is_business_day HOLIDAYS) l)).

(** Hours from the start of the work window to the time [t] clamped into
    the window. *)
Definition elapsed_hours (t : time) : float :=
  let c :=
    Z.min (Z.max (time_us t) (time_us HORA_INICIO)) (time_us HORA_FIN) in
  fdiv (nearest (c - time_us HORA_INICIO) 1000000) (nearest 36000 10).

(** A total with the partial contribution of an end instant at time [t]:
    [min(elapsed, daily_hours)] is added only when the elapsed hours are
    positive. *)
Definition add_partial (total : float) (t : time) : float :=
  if fltb zero (elapsed_hours t)
  then fadd total (py_min (elapsed_hours t) WORK_HOURS) else total.

End Binary64.

(** * Properties *)

(** ** Dates and the calendar *)

Lemma date_eqb_eq (a b : date) : date_eqb a b = true <-> a = b.
Proof.
  destruct a, b; unfold date_eqb; simpl. split.
  - intros H. f_equal; lia.
  - intros H. injection H. lia.
Qed.

Lemma date_leb_spec (a b : date) :
  date_leb a b = true <-> date_ltb a b = true \/ a = b.
Proof.
  unfold date_leb. rewrite orb_true_iff, date_eqb_eq. reflexivity.
Qed.

Lemma date_ltb_irrefl (a : date) : date_ltb a a = false.
Proof. unfold date_ltb. lia. Qed.

Lemma date_ltb_trans (a b c : date) :
  date_ltb a b = true -> date_ltb b c = true -> date_ltb a c = true.
Proof. unfold date_ltb. lia. Qed.

Lemma date_ltb_leb_trans (a b c : date) :
  date_ltb a b = true -> date_leb b c = true -> date_ltb a c = true.
Proof. unfold date_leb, date_ltb, date_eqb. lia. Qed.

Lemma date_leb_ltb_trans (a b c : date) :
  date_leb a b = true -> date_ltb b c = true -> date_ltb a c = true.
Proof. unfold date_leb, date_ltb, date_eqb. lia. Qed.

Lemma date_ltb_false_leb (a b : date) :
  date_ltb a b = false <-> date_leb b a = true.
Proof. unfold date_leb, date_ltb, date_eqb. lia. Qed.

Lemma month_cases (m : Z) :
  1 <= m <= 12 ->
  m = 1 \/ m = 2 \/ m = 3 \/ m = 4 \/ m = 5 \/ m = 6 \/
  m = 7 \/ m = 8 \/ m = 9 \/ m = 10 \/ m = 11 \/ m = 12.
Proof. lia. Qed.

Ltac split_month H :=
  apply month_cases in H;
  repeat (destruct H as [H | H]; [subst | ]); [.. | subst].

Lemma days_in_month_bounds (y m : Z) :
  1 <= m <= 12 -> 28 <= days_in_month y m <= 31.
Proof.
  intros H. unfold days_in_month. split_month H;
    destruct (is_leap y); simpl; lia.
Qed.

Lemma days_before_month_succ (y m : Z) :
  1 <= m <= 11 ->
  days_before_month y (m + 1) = days_before_month y m + days_in_month y m.
Proof.
  intros H. assert (H' : 1 <= m <= 12) by lia.
  unfold days_before_month, days_in_month. split_month H';
    destruct (is_leap y); simpl; lia.
Qed.

Lemma days_before_year_succ (y : Z) :
  days_before_year (y + 1)
  = days_before_year y + 365 + (if is_leap y then 1 else 0).
Proof.
  unfold days_before_year, is_leap.
  replace (y + 1 - 1) with y by lia.
  destruct (y mod 4 =? 0) eqn:E4, (y mod 100 =? 0) eqn:E100,
    (y mod 400 =? 0) eqn:E400; simpl;
    Z.to_euclidean_division_equations; lia.
Qed.

Lemma valid_date_fields (d : date) :
  valid_date d = true <->
  1 <= year d <= 9999 /\ 1 <= month d <= 12
  /\ 1 <= day d <= days_in_month (year d) (month d).
Proof. unfold valid_date, MINYEAR, MAXYEAR. lia. Qed.

Lemma date_key_ltb (a b : date) :
  valid_date a = true -> valid_date b = true ->
  date_ltb a b = true -> date_key a < date_key b.
Proof.
  rewrite !valid_date_fields. intros (_ & Hm & Hd) (_ & Hm' & Hd').
  pose proof (days_in_month_bounds (year a) (month a) Hm).
  pose proof (days_in_month_bounds (year b) (month b) Hm').
  unfold date_ltb, date_key. lia.
Qed.

(** The day after [d], when some valid date lies after [d]: it is valid, it
    is the next ordinal, and no valid date lies strictly between. *)
Lemma date_add_day_ok (d x : date) :
  valid_date d = true -> valid_date x = true -> date_ltb d x = true ->
  exists d',
    date_add_day d = Ok d' /\ valid_date d' = true /\ date_ltb d d' = true
    /\ toordinal d' = toordinal d + 1
    /\ forall z, valid_date z = true -> date_ltb d z = true ->
                 date_leb d' z = true.
Proof.
  rewrite !valid_date_fields. intros (Hy & Hm & Hd) (Hy' & Hm' & Hd') Hlt.
  pose proof (days_in_month_bounds (year d) _ Hm) as Hb.
  unfold date_add_day, MAXYEAR.
  destruct (day d + 1 <=? days_in_month (year d) (month d)) eqn:E1.
  - eexists. split; [reflexivity|]. split; [|split; [|split]].
    + apply valid_date_fields; cbn [year month day]. lia.
    + unfold date_ltb; cbn [year month day]. lia.
    + unfold toordinal; cbn [year month day]. lia.
    + intros z _. unfold date_ltb, date_leb, date_eqb, date_ltb; cbn [year month day]. lia.
  - destruct (month d + 1 <=? 12) eqn:E2.
    + eexists. split; [reflexivity|]. split; [|split; [|split]].
      * apply valid_date_fields; cbn [year month day].
        pose proof (days_in_month_bounds (year d) (month d + 1)). lia.
      * unfold date_ltb; cbn [year month day]. lia.
      * unfold toordinal; cbn [year month day].
        rewrite days_before_month_succ by lia. lia.
      * intros z Hz. apply valid_date_fields in Hz.
        assert (Hsame : year z = year d -> month z = month d ->
                        days_in_month (year z) (month z)
                        = days_in_month (year d) (month d))
          by (intros -> ->; reflexivity).
        unfold date_ltb, date_leb, date_eqb, date_ltb; cbn [year month day].
        lia.
    + assert (Hlast : month d = 12 /\ day d = 31).
      { assert (month d = 12) as Hm12 by lia. split; [exact Hm12|].
        rewrite Hm12 in E1, Hd. unfold days_in_month in E1, Hd.
        simpl in E1, Hd. lia. }
      destruct Hlast as [Hm12 Hd31].
      assert (Hyx : year d < year x).
      { unfold date_ltb in Hlt.
        pose proof (days_in_month_bounds (year x) _ Hm'). lia. }
      replace (year d + 1 <=? 9999) with true by lia.
      eexists. split; [reflexivity|]. split; [|split; [|split]].
      * apply valid_date_fields; cbn [year month day]. unfold days_in_month; simpl. lia.
      * unfold date_ltb; cbn [year month day]. lia.
      * unfold toordinal; cbn [year month day]. rewrite days_before_year_succ, Hm12, Hd31.
        unfold days_before_month; simpl. destruct (is_leap (year d)); lia.
      * intros z Hz. apply valid_date_fields in Hz.
        pose proof (days_in_month_bounds (year z) (month z)).
        unfold date_ltb, date_leb, date_eqb, date_ltb; cbn [year month day].
        rewrite Hm12, Hd31. lia.
Qed.

(** ** The days the loop meets *)

Lemma date_key_leb (a b : date) :
  valid_date a = true -> valid_date b = true ->
  date_leb a b = true -> date_key a <= date_key b.
Proof.
  intros Ha Hb [Hlt | ->]%date_leb_spec; [|lia].
  pose proof (date_key_ltb a b Ha Hb Hlt). lia.
Qed.

Lemma days_from_exists (cur stop : date) :
  valid_date cur = true -> valid_date stop = true ->
  date_leb cur stop = true -> exists l, days_from cur stop l.
Proof.
  intros Hc Hs. remember (Z.to_nat (date_key stop - date_key cur)) as n eqn:Hn.
  revert cur Hc Hn. induction n as [n IH] using lt_wf_ind.
  intros cur Hc -> [Hlt | ->]%date_leb_spec; [|eexists; constructor].
  destruct (date_add_day_ok cur stop Hc Hs Hlt)
    as (d' & Hadd & Hv & Hlt' & _ & Hgap).
  pose proof (date_key_ltb cur d' Hc Hv Hlt').
  pose proof (date_key_leb d' stop Hv Hs (Hgap stop Hs Hlt)).
  destruct (IH (Z.to_nat (date_key stop - date_key d'))) with (cur := d')
    as [l Hl]; [lia | assumption | reflexivity | auto |].
  exists (cur :: l). econstructor; eassumption.
Qed.

Lemma days_from_leb (cur stop : date) (l : list date) :
  days_from cur stop l -> date_leb cur stop = true.
Proof.
  destruct 1 as [d | d d' stop l Hlt _ _].
  - apply date_leb_spec. now right.
  - apply date_leb_spec. now left.
Qed.

(** Every day met is a valid date of the interval. *)
Lemma days_from_sound (cur stop : date) (l : list date) :
  days_from cur stop l ->
  valid_date cur = true -> valid_date stop = true ->
  forall x, x ∈ l ->
    valid_date x = true /\ date_leb cur x = true /\ date_ltb x stop = true.
Proof.
  induction 1 as [d | d d' stop l Hlt Hadd Hl IH]; intros Hc Hs x Hx.
  - inversion Hx.
  - destruct (date_add_day_ok d stop Hc Hs Hlt)
      as (d2 & Hadd' & Hv & Hlt' & _ & _).
    rewrite Hadd in Hadd'. injection Hadd' as <-.
    apply elem_of_cons in Hx as [-> | Hx].
    + repeat split; auto. apply date_leb_spec. now right.
    + destruct (IH Hv Hs x Hx) as (Hvx & Hle & Hltx).
      repeat split; auto. apply date_leb_spec. left.
      eapply date_ltb_leb_trans; eassumption.
Qed.

(** Every valid date of the interval is met. *)
Lemma days_from_complete (cur stop : date) (l : list date) :
  days_from cur stop l ->
  valid_date cur = true -> valid_date stop = true ->
  forall x, valid_date x = true -> date_leb cur x = true ->
            date_ltb x stop = true -> x ∈ l.
Proof.
  induction 1 as [d | d d' stop l Hlt Hadd Hl IH]; intros Hc Hs x Hx Hle Hltx.
  - apply date_ltb_false_leb in Hle. congruence.
  - destruct (date_add_day_ok d stop Hc Hs Hlt)
      as (d2 & Hadd' & Hv & _ & _ & Hgap).
    rewrite Hadd in Hadd'. injection Hadd' as <-.
    apply date_leb_spec in Hle as [Hdx | <-]; [|apply elem_of_cons; now left].
    apply elem_of_cons. right. apply IH; auto.
Qed.

Lemma days_from_NoDup (cur stop : date) (l : list date) :
  days_from cur stop l ->
  valid_date cur = true -> valid_date stop = true -> NoDup l.
Proof.
  induction 1 as [d | d d' stop l Hlt Hadd Hl IH]; intros Hc Hs.
  - constructor.
  - destruct (date_add_day_ok d stop Hc Hs Hlt)
      as (d2 & Hadd' & Hv & Hlt' & _ & _).
    rewrite Hadd in Hadd'. injection Hadd' as <-.
    constructor; [|auto].
    intros Hin. destruct (days_from_sound _ _ _ Hl Hv Hs d Hin) as (_ & Hle & _).
    pose proof (date_ltb_leb_trans _ _ _ Hlt' Hle) as Habs.
    rewrite date_ltb_irrefl in Habs. discriminate.
Qed.

(** The loop makes as many rounds as ordinals separate the two dates. *)
Lemma days_from_ordinal (cur stop : date) (l : list date) :
  days_from cur stop l ->
  valid_date cur = true -> valid_date stop = true ->
  toordinal stop = toordinal cur + Z.of_nat (length l).
Proof.
  induction 1 as [d | d d' stop l Hlt Hadd Hl IH]; intros Hc Hs.
  - simpl. lia.
  - destruct (date_add_day_ok d stop Hc Hs Hlt)
      as (d2 & Hadd' & Hv & _ & Hord & _).
    rewrite Hadd in Hadd'. injection Hadd' as <-.
    rewrite (IH Hv Hs), Hord. simpl length. lia.
Qed.

Lemma days_from_app (a b c : date) (l1 l2 : list date) :
  days_from a b l1 -> days_from b c l2 -> days_from a c (l1 ++ l2).
Proof.
  induction 1 as [d | d d' stop l Hlt Hadd Hl IH]; intros H2; [exact H2|].
  simpl. econstructor; [|eassumption|auto].
  eapply date_ltb_leb_trans; [eassumption|]. eapply days_from_leb; eassumption.
Qed.

(** ** The loop of [business_hours_between] *)

Lemma bhb_loop_stop (H : gset string) (fuel : nat) (stop cur : date) (total : Q) :
  date_ltb cur stop = false -> bhb_loop H fuel stop cur total = Ok total.
Proof. intros E. destruct fuel; simpl; now rewrite E. Qed.

Lemma bhb_loop_days (H : gset string) (cur stop : date) (l : list date) :
  days_from cur stop l ->
  forall fuel total, (length l <= fuel)%nat ->
    bhb_loop H fuel stop cur total = Ok (fold_left (add_day_hours H) l total).
Proof.
  induction 1 as [d | d d' stop l Hlt Hadd Hl IH]; intros fuel total Hf.
  - apply bhb_loop_stop, date_ltb_irrefl.
  - destruct fuel as [|fuel]; [simpl in Hf; lia|].
    simpl. rewrite Hlt, Hadd. simpl. apply IH. simpl in Hf. lia.
Qed.

(** The bound [business_hours_between] gives the loop is never exhausted. *)
Lemma bhb_loop_enough_fuel (H : gset string) (fuel : nat) (stop cur : date)
  (total : Q) :
  valid_date cur = true -> valid_date stop = true ->
  (Z.to_nat (toordinal stop - toordinal cur) <= fuel)%nat ->
  exists t, bhb_loop H fuel stop cur total = Ok t.
Proof.
  intros Hc Hs Hf. destruct (date_ltb cur stop) eqn:E.
  - destruct (days_from_exists cur stop Hc Hs) as [l Hl].
    { apply date_leb_spec. now left. }
    eexists. apply (bhb_loop_days H _ _ _ Hl).
    pose proof (days_from_ordinal _ _ _ Hl Hc Hs). lia.
  - eexists. now apply bhb_loop_stop.
Qed.

Lemma Qsum_cons (x : Q) (l : list Q) : Qsum (x :: l) = (x + Qsum l)%Q.
Proof. reflexivity. Qed.

Lemma full_day_hours_cons (H : gset string) (d : date) (l : list date) :
  full_day_hours H (d :: l)
  = if is_business_day H d then (WORK_HOURS + full_day_hours H l)%Q
    else full_day_hours H l.
Proof.
  unfold full_day_hours. cbn [List.filter].
  destruct (is_business_day H d); reflexivity.
Qed.

Lemma fold_add_day_hours (H : gset string) (l : list date) (total : Q) :
  (fold_left (add_day_hours H) l total == total + full_day_hours H l)%Q.
Proof.
  revert total. induction l as [|d l IH]; intros total.
  - unfold full_day_hours. simpl. lra.
  - cbn [fold_left]. rewrite IH, full_day_hours_cons. unfold add_day_hours.
    destruct (is_business_day H d); lra.
Qed.


Lemma full_day_hours_app (H : gset string) (l1 l2 : list date) :
  (full_day_hours H (l1 ++ l2) == full_day_hours H l1 + full_day_hours H l2)%Q.
Proof.
  induction l1 as [|d l1 IH]; [unfold full_day_hours; simpl; lra|].
  rewrite <- app_comm_cons, !full_day_hours_cons.
  destruct (is_business_day H d); rewrite IH; lra.
Qed.

(** ** Rounding *)

Lemma round_half_even_compat (x y : Q) :
  (x == y)%Q -> round_half_even x = round_half_even y.
Proof.
  intros E. unfold round_half_even.
  rewrite (Qfloor_comp _ _ E).
  assert (E' : (x - inject_Z (Qfloor y) == y - inject_Z (Qfloor y))%Q)
    by (rewrite E; reflexivity).
  now rewrite (Qcompare_comp _ _ E' _ _ (Qeq_refl (1 # 2))).
Qed.



Lemma py_round_compat (x y : Q) (n : nat) :
  (x == y)%Q -> py_round x n = py_round y n.
Proof.
  intros E. unfold py_round. f_equal. f_equal.
  apply round_half_even_compat. now rewrite E.
Qed.



(** ** Times of day and the contribution of the last day *)

Lemma valid_time_fields (t : time) :
  valid_time t = true <->
  0 <= hour t < 24 /\ 0 <= minute t < 60 /\ 0 <= second t < 60
  /\ 0 <= microsecond t < 1000000.
Proof. unfold valid_time. lia. Qed.

Lemma time_ltb_us (a b : time) :
  valid_time a = true -> valid_time b = true ->
  time_ltb a b = (time_us a <? time_us b).
Proof.
  rewrite !valid_time_fields. intros Ha Hb.
  unfold time_ltb, time_us. lia.
Qed.


Lemma date_eqb_refl (d : date) : date_eqb d d = true.
Proof. now apply date_eqb_eq. Qed.

Lemma elapsed_hours_bounds (t : time) :
  (0 <= elapsed_hours t <= WORK_HOURS)%Q.
Proof.
  unfold elapsed_hours, WORK_HOURS.
  change (time_us HORA_INICIO) with 28800000000.
  change (time_us HORA_FIN) with 59400000000.
  unfold Qle; cbn [Qnum Qden]. lia.
Qed.


Lemma partial_hours_elapsed (t : time) :
  (partial_hours t == elapsed_hours t)%Q.
Proof.
  pose proof (elapsed_hours_bounds t) as [H0 H1]. unfold partial_hours.
  destruct (Qlt_le_dec 0 (elapsed_hours t)) as [Hpos | Hle].
  - apply Q.min_l. exact H1.
  - lra.
Qed.



Lemma py_min_Qmin (a b : Q) : (py_min a b == Qmin a b)%Q.
Proof.
  unfold py_min. destruct (Qlt_le_dec b a) as [H | H].
  - symmetry. apply Q.min_r. lra.
  - symmetry. apply Q.min_l. exact H.
Qed.

(** The instant clamped into the work window, as a time of day. *)
Lemma clamp_to_workday_us (dt : datetime) :
  valid_time (dt_time dt) = true ->
  dt_date (clamp_to_workday dt) = dt_date dt
  /\ time_us (dt_time (clamp_to_workday dt))
     = Z.min (Z.max (time_us (dt_time dt)) (time_us HORA_INICIO))
         (time_us HORA_FIN).
Proof.
  intros Hv. unfold clamp_to_workday, datetime_ltb. cbn [dt_date dt_time].
  rewrite date_ltb_irrefl, date_eqb_refl. cbn [orb andb].
  rewrite !time_ltb_us by (assumption || reflexivity).
  change (time_us HORA_INICIO) with 28800000000.
  change (time_us HORA_FIN) with 59400000000.
  destruct (time_us (dt_time dt) <? 28800000000) eqn:E1;
    [|destruct (59400000000 <? time_us (dt_time dt)) eqn:E2];
    cbn [dt_date dt_time]; split; try reflexivity;
    try change (time_us HORA_INICIO) with 28800000000;
    try change (time_us HORA_FIN) with 59400000000; lia.
Qed.

Lemma datetime_sub_same_date (a b : datetime) :
  dt_date a = dt_date b ->
  datetime_sub a b = time_us (dt_time a) - time_us (dt_time b).
Proof. intros E. unfold datetime_sub, time_us. rewrite E. lia. Qed.

(** The code's contribution of the last day is the partial contribution of
    its time of day, on a business day, and nothing otherwise. *)
Lemma end_day_hours_spec (H : gset string) (e : datetime) :
  valid_time (dt_time e) = true ->
  (end_day_hours H e
   == if is_business_day H (dt_date e) then partial_hours (dt_time e) else 0)%Q.
Proof.
  intros Hv. unfold end_day_hours.
  destruct (is_business_day H (dt_date e)); [|reflexivity].
  destruct (clamp_to_workday_us e Hv) as [Hd Hus].
  rewrite datetime_sub_same_date by exact Hd.
  cbn [dt_time]. rewrite Hus.
  assert (E : (total_seconds
                 (Z.min (Z.max (time_us (dt_time e)) (time_us HORA_INICIO))
                    (time_us HORA_FIN) - time_us HORA_INICIO) / 3600
               == elapsed_hours (dt_time e))%Q).
  { unfold total_seconds, elapsed_hours, Qeq, Qdiv, Qmult, Qinv; simpl. lia. }
  pose proof (elapsed_hours_bounds (dt_time e)) as [H0 H1].
  unfold partial_hours.
  destruct (Qlt_le_dec 0 _) as [Hp | Hn], (Qlt_le_dec 0 (elapsed_hours _))
    as [Hp' | Hn']; try lra.
  rewrite py_min_Qmin, E. reflexivity.
Qed.

(** ** [business_hours_between] *)

Lemma valid_datetime_fields (dt : datetime) :
  valid_datetime dt = true <->
  valid_date (dt_date dt) = true /\ valid_time (dt_time dt) = true.
Proof. unfold valid_datetime. apply andb_true_iff. Qed.

(** The result in two parts: the total of the loop and what the last day
    adds. *)
Lemma bhb_unfold (H : gset string) (d0 : date) (e : datetime) :
  business_hours_between H (Some d0) (Some e)
  = let* total :=
      bhb_loop H (Z.to_nat (toordinal (dt_date e) - toordinal d0))
        (dt_date e) d0 0%Q in
    Ok (py_round (total + end_day_hours H e) 2).
Proof.
  unfold business_hours_between, end_day_hours.
  destruct (bhb_loop H _ (dt_date e) d0 0%Q) as [t| |]; cbn [res_bind];
    try reflexivity.
  f_equal. apply py_round_compat.
  destruct (is_business_day H (dt_date e)); [|lra].
  cbv zeta. destruct (Qlt_le_dec 0 _); lra.
Qed.

(** With the days the loop meets in hand, the result is the rounded sum of
    their hours and of the contribution of the last day. *)
Lemma bhb_days (H : gset string) (d0 : date) (e : datetime) (l : list date) :
  valid_date d0 = true -> valid_date (dt_date e) = true ->
  days_from d0 (dt_date e) l ->
  business_hours_between H (Some d0) (Some e)
  = Ok (py_round (fold_left (add_day_hours H) l 0%Q + end_day_hours H e) 2).
Proof.
  intros Hd He Hl. rewrite bhb_unfold.
  rewrite (bhb_loop_days H _ _ _ Hl); [reflexivity|].
  pose proof (days_from_ordinal _ _ _ Hl Hd He). lia.
Qed.


Lemma bhb_value (H : gset string) (d0 : date) (e : datetime) (l : list date) :
  valid_datetime e = true ->
  py_round (fold_left (add_day_hours H) l 0%Q + end_day_hours H e) 2
  = py_round
      (full_day_hours H l
       + (if is_business_day H (dt_date e) then partial_hours (dt_time e)
          else 0)) 2.
Proof.
  intros [_ Ht]%valid_datetime_fields. apply py_round_compat.
  rewrite fold_add_day_hours, (end_day_hours_spec H e Ht). lra.
Qed.

(** *** On doubles *)

Lemma bhb_float_loop_stop (H : gset string) (fuel : nat) (stop cur : date)
  (total : Binary64.float) :
  date_ltb cur stop = false ->
  Binary64.bhb_loop H fuel stop cur total = Ok total.
Proof. intros E. destruct fuel; cbn [Binary64.bhb_loop]; now rewrite E. Qed.

(** The loop adds [WORK_HOURS] to the running total once for each business
    day it meets, in their order. *)
Lemma bhb_float_loop_days (H : gset string) (cur stop : date) (l : list date) :
  days_from cur stop l ->
  forall fuel total, (length l <= fuel)%nat ->
    Binary64.bhb_loop H fuel stop cur total
    = Ok (fold_left Binary64.fadd
            (map (fun _ => Binary64.WORK_HOURS)
               (List.filter (is_business_day H) l)) total).
Proof.
  induction 1 as [d | d d' stop l Hlt Hadd Hl IH]; intros fuel total Hf.
  - apply bhb_float_loop_stop, date_ltb_irrefl.
  - destruct fuel as [|fuel]; [cbn [length] in Hf; lia|].
    cbn [Binary64.bhb_loop]. rewrite Hlt, Hadd. cbn [res_bind].
    rewrite IH by (cbn [length] in Hf; lia).
    cbn [List.filter]. destruct (is_business_day H d); reflexivity.
Qed.

(** The hours of the last day, as the code computes them, are those of its
    time of day clamped into the work window. *)
Lemma last_day_elapsed_hours (e : datetime) :
  valid_time (dt_time e) = true ->
  Binary64.fdiv
    (Binary64.total_seconds
       (datetime_sub (clamp_to_workday e) (combine (dt_date e) HORA_INICIO)))
    (Binary64.nearest 36000 10)
  = Binary64.elapsed_hours (dt_time e).
Proof.
  intros Hv. destruct (clamp_to_workday_us e Hv) as [Hd Hus].
  rewrite datetime_sub_same_date by exact Hd.
  cbn [dt_time]. rewrite Hus. reflexivity.
Qed.

(** The result in two parts: the total of the loop and what the last day
    adds. *)
Lemma bhb_float_unfold (H : gset string) (d0 : date) (e : datetime) :
  valid_time (dt_time e) = true ->
  Binary64.business_hours_between H (Some d0) (Some e)
  = let* total :=
      Binary64.bhb_loop H (Z.to_nat (toordinal (dt_date e) - toordinal d0))
        (dt_date e) d0 Binary64.zero in
    Ok (Binary64.py_round
          (if is_business_day H (dt_date e)
           then Binary64.add_partial total (dt_time e) else total) 2).
Proof.
  intros Hv. unfold Binary64.business_hours_between.
  destruct (Binary64.bhb_loop H _ (dt_date e) d0 Binary64.zero) as [t| |];
    cbn [res_bind]; try reflexivity.
  destruct (is_business_day H (dt_date e)); [|reflexivity].
  cbv zeta. rewrite (last_day_elapsed_hours e Hv). reflexivity.
Qed.

Lemma bhb_float_days (H : gset string) (d0 : date) (e : datetime)
  (l : list date) :
  valid_date d0 = true -> valid_datetime e = true ->
  days_from d0 (dt_date e) l ->
  Binary64.business_hours_between H (Some d0) (Some e)
  = Ok (Binary64.py_round
          (if is_business_day H (dt_date e)
           then Binary64.add_partial (Binary64.full_day_hours H l) (dt_time e)
           else Binary64.full_day_hours H l) 2).
Proof.
  intros Hd [He Ht]%valid_datetime_fields Hl.
  rewrite bhb_float_unfold by exact Ht.
  rewrite (bhb_float_loop_days H _ _ _ Hl); [reflexivity|].
  pose proof (days_from_ordinal _ _ _ Hl Hd He). lia.
Qed.

Lemma bhb_float_end_before_start (H : gset string) (d0 : date)
  (e : datetime) :
  valid_time (dt_time e) = true -> date_ltb d0 (dt_date e) = false ->
  Binary64.business_hours_between H (Some d0) (Some e)
  = Ok (Binary64.py_round
          (if is_business_day H (dt_date e)
           then Binary64.add_partial Binary64.zero (dt_time e)
           else Binary64.zero) 2).
Proof.
  intros Ht E. rewrite bhb_float_unfold by exact Ht.
  now rewrite bhb_float_loop_stop.
Qed.

(** C1. [business_hours_between] returns 0 when an argument is absent;
    otherwise it returns, rounded to 2 decimals, the sum of [WORK_HOURS] over
    every business day [d] of the calendar with [d0 <= d < end_dt.date()],
    plus, when the end date is a business day, the partial contribution
    [min(elapsed, WORK_HOURS)] of the end instant clamped into the work
    window, added only when positive.  Sums, quotients and the rounding are
    those of doubles. *)
Theorem business_hours_between_spec (H : gset string) :
  (forall e, Binary64.business_hours_between H None e = Ok Binary64.zero)
  /\ (forall d0, Binary64.business_hours_between H d0 None = Ok Binary64.zero)
  /\ forall (d0 : date) (end_dt : datetime),
       valid_date d0 = true -> valid_datetime end_dt = true ->
       exists days : list date,
         NoDup days
         /\ (forall d, d ∈ days <->
               valid_date d = true /\ date_leb d0 d = true
               /\ date_ltb d (dt_date end_dt) = true)
         /\ Binary64.business_hours_between H (Some d0) (Some end_dt)
            = Ok (Binary64.py_round
                    (if is_business_day H (dt_date end_dt)
                     then Binary64.add_partial
                            (Binary64.full_day_hours H days) (dt_time end_dt)
                     else Binary64.full_day_hours H days) 2).
Proof.
  split; [reflexivity|]. split; [intros [d0|]; reflexivity|].
  intros d0 e Hd He. pose proof He as [Hs Ht]%valid_datetime_fields.
  destruct (date_leb d0 (dt_date e)) eqn:Hle.
  - destruct (days_from_exists _ _ Hd Hs Hle) as [l Hl]. exists l.
    split; [eapply days_from_NoDup; eassumption|]. split.
    + intros d. split.
      * apply (days_from_sound _ _ _ Hl Hd Hs).
      * intros (Hv & H1 & H2). eapply days_from_complete; eassumption.
    + now apply bhb_float_days.
  - exists []. split; [constructor|]. split.
    + intros d. split; [inversion 1|]. intros (_ & H1 & H2).
      pose proof (date_leb_ltb_trans _ _ _ H1 H2) as Hlt.
      unfold date_leb in Hle. rewrite Hlt in Hle. discriminate.
    + apply bhb_float_end_before_start; [exact Ht|].
      unfold date_leb in Hle. now apply orb_false_iff in Hle as [-> _].
Qed.

Lemma business_hours_between_spec_witness :
  valid_date (mk_date 2025 6 2) = true
  /\ valid_datetime (combine (mk_date 2025 6 4) (mk_time 10 0 0 0)) = true
  /\ exists days : list date,
    NoDup days
    /\ (forall d, d ∈ days <->
          valid_date d = true /\ date_leb (mk_date 2025 6 2) d = true
          /\ date_ltb d (mk_date 2025 6 4) = true)
    /\ Binary64.business_hours_between ∅ (Some (mk_date 2025 6 2))
         (Some (combine (mk_date 2025 6 4) (mk_time 10 0 0 0)))
       = Ok (Binary64.py_round
               (if is_business_day ∅ (mk_date 2025 6 4)
                then Binary64.add_partial (Binary64.full_day_hours ∅ days)
                       (mk_time 10 0 0 0)
                else Binary64.full_day_hours ∅ days) 2).
Proof.
  split; [reflexivity|]. split; [reflexivity|].
  apply (proj2 (proj2 (business_hours_between_spec ∅))
           (mk_date 2025 6 2)
           (combine (mk_date 2025 6 4) (mk_time 10 0 0 0)));
    reflexivity.
Defined.

(** The values on doubles from Monday 2025-06-02 to Wednesday 2025-06-04
    at 10:00: 19.0 with no holidays, 10.5 with the holiday 2025-06-03; and
    2.0 from 2025-06-10 back to that Wednesday. *)
Example bhb_float_scenario :
  Binary64.business_hours_between ∅ (Some (mk_date 2025 6 2))
    (Some (combine (mk_date 2025 6 4) (mk_time 10 0 0 0)))
  = Ok (Binary64.of_Z 19).
Proof. vm_compute. reflexivity. Qed.

Example bhb_float_scenario_holiday :
  Binary64.business_hours_between {[ "2025-06-03" ]} (Some (mk_date 2025 6 2))
    (Some (combine (mk_date 2025 6 4) (mk_time 10 0 0 0)))
  = Ok (Binary64.nearest 105 10).
Proof. vm_compute. reflexivity. Qed.

Example bhb_float_end_before_start_positive :
  Binary64.business_hours_between ∅ (Some (mk_date 2025 6 10))
    (Some (combine (mk_date 2025 6 4) (mk_time 10 0 0 0)))
  = Ok (Binary64.of_Z 2).
Proof. vm_compute. reflexivity. Qed.

(** Where the rounding of doubles shows: 54 seconds into the window are
    0.015 hours, held as the double just below, and the result is 0.01; 18
    seconds are 0.005 hours, held as the double just above, and the result
    is 0.01 too. *)
Example bhb_float_54_seconds :
  Binary64.business_hours_between ∅ (Some (mk_date 2025 6 4))
    (Some (combine (mk_date 2025 6 4) (mk_time 8 0 54 0)))
  = Ok (Binary64.nearest 1 100).
Proof. vm_compute. reflexivity. Qed.

Example bhb_float_18_seconds :
  Binary64.business_hours_between ∅ (Some (mk_date 2025 6 4))
    (Some (combine (mk_date 2025 6 4) (mk_time 8 0 18 0)))
  = Ok (Binary64.nearest 1 100).
Proof. vm_compute. reflexivity. Qed.

(** The scenario of C2 and C3: Monday 2025-06-02 to Wednesday 2025-06-04 at
    10:00. *)
Example weekday_2025_06_02 : weekday (mk_date 2025 6 2) = 0.
Proof. reflexivity. Qed.

(** C2, as stated, fails: with no holidays the call does not return 10.5. *)
Lemma scenario_no_holidays_not_10_5 :
  exists h,
    business_hours_between ∅ (Some (mk_date 2025 6 2))
      (Some (combine (mk_date 2025 6 4) (mk_time 10 0 0 0))) = Ok h
    /\ ~ (h == 10.5)%Q.
Proof.
  exists 19%Q. split; [vm_compute; reflexivity|].
  intros E. vm_compute in E. discriminate.
Qed.

(** C2, amended. With the work window 08:00-16:30 and no holidays, from
    Monday 2025-06-02 to Wednesday 2025-06-04 at 10:00 the result is 19.0:
    the start day counts as a full day, so Monday and Tuesday give 8.5 hours
    each, and Wednesday gives 2 hours. *)
Theorem scenario_no_holidays :
  business_hours_between ∅ (Some (mk_date 2025 6 2))
    (Some (combine (mk_date 2025 6 4) (mk_time 10 0 0 0))) = Ok 19%Q
  /\ (19 == WORK_HOURS + WORK_HOURS + 2)%Q
  /\ is_business_day ∅ (mk_date 2025 6 2) = true
  /\ is_business_day ∅ (mk_date 2025 6 3) = true
  /\ (partial_hours (mk_time 10 0 0 0) == 2)%Q.
Proof. repeat split; vm_compute; reflexivity. Qed.

(** C3, as stated, fails: with the holiday 2025-06-03 the call does not
    return 2.0. *)
Lemma scenario_holiday_not_2 :
  exists h,
    business_hours_between {[ "2025-06-03" ]} (Some (mk_date 2025 6 2))
      (Some (combine (mk_date 2025 6 4) (mk_time 10 0 0 0))) = Ok h
    /\ ~ (h == 2)%Q.
Proof.
  exists (21 # 2). split; [vm_compute; reflexivity|].
  intros E. vm_compute in E. discriminate.
Qed.

(** C3, amended. With the holiday 2025-06-03 the same call returns 10.5:
    Tuesday is excluded, Monday (the start day) gives 8.5 hours and
    Wednesday 2 hours. *)
Theorem scenario_holiday :
  business_hours_between {[ "2025-06-03" ]} (Some (mk_date 2025 6 2))
    (Some (combine (mk_date 2025 6 4) (mk_time 10 0 0 0))) = Ok (21 # 2)
  /\ (21 # 2 == WORK_HOURS + 2)%Q
  /\ is_business_day {[ "2025-06-03" ]} (mk_date 2025 6 2) = true
  /\ is_business_day {[ "2025-06-03" ]} (mk_date 2025 6 3) = false
  /\ (partial_hours (mk_time 10 0 0 0) == 2)%Q.
Proof. repeat split; vm_compute; reflexivity. Qed.



Lemma days_from_lt_cons (a b : date) (l : list date) :
  days_from a b l -> date_ltb a b = true -> exists l', l = a :: l'.
Proof.
  destruct 1 as [d | d d' stop l _ _ _]; intros Hlt.
  - rewrite date_ltb_irrefl in Hlt. discriminate.
  - now exists l.
Qed.



(** C9. [business_hours_between] asks for no order between its arguments:
    with the start 2025-06-10, the end 2025-06-04 at 10:00 (before the
    start) and no holidays, the loop adds nothing, the partial contribution
    of the end day is still added, and the result is 2.0, not 0. *)
Theorem bhb_end_before_start_positive :
  exists (d0 : date) (end_dt : datetime),
    d0 = mk_date 2025 6 10
    /\ end_dt = combine (mk_date 2025 6 4) (mk_time 10 0 0 0)
    /\ valid_date d0 = true /\ valid_datetime end_dt = true
    /\ date_ltb (dt_date end_dt) d0 = true
    /\ (forall fuel, bhb_loop ∅ fuel (dt_date end_dt) d0 0%Q = Ok 0%Q)
    /\ business_hours_between ∅ (Some d0) (Some end_dt) = Ok 2%Q
    /\ (0 < 2)%Q.
Proof.
  do 2 eexists. split; [reflexivity|]. split; [reflexivity|].
  split; [reflexivity|]. split; [reflexivity|]. split; [reflexivity|].
  split; [intros fuel; now apply bhb_loop_stop|].
  split; [vm_compute; reflexivity | reflexivity].
Qed.

(** ** [is_business_day] *)

Example weekday_saturday : weekday (mk_date 2025 6 7) = 5.
Proof. reflexivity. Qed.

Example weekday_sunday : weekday (mk_date 2025 6 8) = 6.
Proof. reflexivity. Qed.

Lemma weekday_range (d : date) : 0 <= weekday d < 7.
Proof. unfold weekday. apply Z.mod_pos_bound. lia. Qed.


(** ** Texts of dates *)

Lemma digit_val_digit_char (k : Z) :
  0 <= k <= 9 -> digit_val (digit_char k) = Some k.
Proof.
  intros Hk. assert (Hc : k = 0 \/ k = 1 \/ k = 2 \/ k = 3 \/ k = 4 \/ k = 5
                          \/ k = 6 \/ k = 7 \/ k = 8 \/ k = 9) by lia.
  repeat (destruct Hc as [-> | Hc]; [reflexivity|]). subst. reflexivity.
Qed.

Lemma append_String (c : ascii) (s r : string) :
  String c s +:+ r = String c (s +:+ r).
Proof. reflexivity. Qed.

Lemma append_empty (r : string) : "" +:+ r = r.
Proof. reflexivity. Qed.

(** From year 1000 on the year is written on four digits. *)
Lemma strftime_ymd_four_digits (d : date) :
  1000 <= year d ->
  strftime_ymd d
  = pad4 (year d) +:+ "-" +:+ pad2 (month d) +:+ "-" +:+ pad2 (day d).
Proof.
  intros Hy. unfold strftime_ymd, year_text.
  destruct (year d <? 10) eqn:E1; [lia|].
  destruct (year d <? 100) eqn:E2; [lia|].
  destruct (year d <? 1000) eqn:E3; [lia|]. reflexivity.
Qed.

Lemma re_Y_pad4 (y : Z) (r : string) :
  0 <= y <= 9999 -> re_Y (pad4 y +:+ r) = [(y, r)].
Proof.
  intros Hy. unfold pad4, pad2. rewrite !append_String, append_empty.
  unfold re_Y.
  rewrite !digit_val_digit_char
    by (Z.to_euclidean_division_equations; lia).
  do 2 f_equal. f_equal. Z.to_euclidean_division_equations. lia.
Qed.

Lemma re_m_pad2 (m : Z) (r : string) :
  1 <= m <= 12 -> exists rest, re_m (pad2 m +:+ r) = (m, r) :: rest.
Proof.
  intros Hm. split_month Hm; eexists; reflexivity.
Qed.

Lemma day_cases (d : Z) :
  1 <= d <= 31 ->
    d = 1 \/ d = 2 \/ d = 3 \/ d = 4 \/ d = 5 \/ d = 6 \/ d = 7 \/ d = 8 \/
    d = 9 \/ d = 10 \/ d = 11 \/ d = 12 \/ d = 13 \/ d = 14 \/ d = 15 \/
    d = 16 \/ d = 17 \/ d = 18 \/ d = 19 \/ d = 20 \/ d = 21 \/ d = 22 \/
    d = 23 \/ d = 24 \/ d = 25 \/ d = 26 \/ d = 27 \/ d = 28 \/ d = 29 \/
    d = 30 \/ d = 31.
Proof. lia. Qed.

Lemma re_d_pad2 (d : Z) (r : string) :
  1 <= d <= 31 -> exists rest, re_d (pad2 d +:+ r) = (d, r) :: rest.
Proof.
  intros Hd. apply day_cases in Hd.
  repeat (destruct Hd as [-> | Hd]; [eexists; reflexivity|]).
  subst. eexists; reflexivity.
Qed.

Lemma bind_cons {A B : Type} (f : A -> list B) (x : A) (l : list A) :
  (x :: l) ≫= f = f x ++ (l ≫= f).
Proof. reflexivity. Qed.

Lemma lit_match (c : ascii) (r : string) : lit c (String c r) = [r].
Proof. unfold lit. now rewrite Ascii.eqb_refl. Qed.

(** The first match of the format [%Y-%m-%d] on the text of a date gives
    back its fields and leaves nothing over. *)
Lemma format_regex_strftime (d : date) :
  valid_date d = true -> 1000 <= year d ->
  exists rest,
    format_regex Y_m_d (strftime_ymd d)
    = (year d, month d, day d, "") :: rest.
Proof.
  intros (Hy & Hm & Hd)%valid_date_fields Hy4.
  pose proof (days_in_month_bounds (year d) _ Hm) as Hb.
  rewrite strftime_ymd_four_digits by exact Hy4. unfold format_regex.
  rewrite re_Y_pad4 by lia. rewrite bind_cons.
  rewrite append_String, append_empty, lit_match, bind_cons.
  destruct (re_m_pad2 (month d) ("-" +:+ pad2 (day d)) Hm) as [rm ->].
  rewrite bind_cons. cbv beta iota.
  rewrite append_String, append_empty, lit_match, bind_cons.
  destruct (re_d_pad2 (day d) "") as [rd Hrd]; [lia|].
  change (pad2 (day d) +:+ "") with (pad2 (day d)) in Hrd.
  rewrite Hrd, bind_cons. cbv beta iota.
  rewrite <- !app_comm_cons. eexists. reflexivity.
Qed.

Lemma strptime_strftime (d : date) :
  valid_date d = true -> 1000 <= year d ->
  strptime (strftime_ymd d) Y_m_d = Ok d.
Proof.
  intros Hv Hy4. unfold strptime.
  destruct (format_regex_strftime d Hv Hy4) as [rest ->].
  cbn [String.eqb]. unfold new_date.
  destruct d as [y m dd]. cbn [year month day] in *. now rewrite Hv.
Qed.

Lemma digit_not_space (c : ascii) (k : Z) :
  digit_val c = Some k -> is_space c = false.
Proof.
  unfold digit_val, is_space.
  destruct ((48 <=? code c) && (code c <=? 57)) eqn:E; [|discriminate].
  intros _. lia.
Qed.

Lemma rstrip_String_nonspace (c : ascii) (s : string) :
  rstrip s = s -> is_space c = false \/ s <> "" ->
  rstrip (String c s) = String c s.
Proof.
  intros E Hc. cbn [rstrip]. rewrite E. destruct s as [|c' s'].
  - destruct Hc as [-> | Hc]; [reflexivity | contradiction].
  - reflexivity.
Qed.

(** The text of a date has no white space at either end and is not
    empty. *)
Lemma strip_strftime (d : date) :
  valid_date d = true -> 1000 <= year d ->
  strip (strftime_ymd d) = strftime_ymd d
  /\ exists c s, strftime_ymd d = String c s.
Proof.
  intros (Hy & Hm & Hd)%valid_date_fields Hy4.
  pose proof (days_in_month_bounds (year d) _ Hm) as Hb.
  rewrite strftime_ymd_four_digits by exact Hy4. unfold pad4, pad2.
  rewrite !append_String, !append_empty.
  split; [|do 2 eexists; reflexivity].
  unfold strip. cbn [lstrip].
  rewrite (digit_not_space _ ((year d / 1000) mod 10))
    by (apply digit_val_digit_char; Z.to_euclidean_division_equations; lia).
  repeat (apply rstrip_String_nonspace; [|right; discriminate]).
  apply rstrip_String_nonspace; [reflexivity|]. left.
  apply (digit_not_space _ (day d mod 10)), digit_val_digit_char.
  Z.to_euclidean_division_equations; lia.
Qed.

Lemma first_format_head (s : string) (d : date) (fmts : list date_format) :
  strptime s Y_m_d = Ok d -> first_format s (Y_m_d :: fmts) = Some d.
Proof. intros E. cbn [first_format]. now rewrite E. Qed.

(** A date read back from its own text. *)
Lemma parse_fecha_strftime (d : date) :
  valid_date d = true -> 1000 <= year d ->
  parse_fecha (Some (strftime_ymd d)) = Some d.
Proof.
  intros Hv Hy4. destruct (strip_strftime d Hv Hy4) as [Hs (c & s & Hne)].
  unfold parse_fecha. rewrite Hs.
  rewrite (first_format_head _ d) by now apply strptime_strftime.
  rewrite Hne. reflexivity.
Qed.

Lemma strptime_valid (s : string) (fmt : date_format) (d : date) :
  strptime s fmt = Ok d -> valid_date d = true.
Proof.
  unfold strptime. destruct (format_regex fmt s) as [|[[[y m] dd] r] ?];
    [discriminate|].
  destruct (String.eqb r ""); [|discriminate]. unfold new_date.
  destruct (valid_date (mk_date y m dd)) eqn:E; [|discriminate].
  now intros [= <-].
Qed.

Lemma first_format_valid (s : string) (fmts : list date_format) (d : date) :
  first_format s fmts = Some d -> valid_date d = true.
Proof.
  induction fmts as [|fmt fmts IH]; [discriminate|]. cbn [first_format].
  destruct (strptime s fmt) as [d'| |] eqn:E; cbn [catch_all]; auto.
  intros [= <-]. eapply strptime_valid; eassumption.
Qed.

(** [parse_fecha] only returns dates that exist. *)
Lemma parse_fecha_valid (s : option string) (d : date) :
  parse_fecha s = Some d -> valid_date d = true.
Proof.
  destruct s as [t|]; [|discriminate]. unfold parse_fecha.
  destruct (String.eqb t ""); [discriminate|]. apply first_format_valid.
Qed.

(** A blank text is not a date. *)
Lemma parse_fecha_blank (s : option string) :
  blank s = true -> parse_fecha s = None.
Proof.
  destruct s as [t|]; [|reflexivity]. cbn [blank parse_fecha].
  intros ->%String.eqb_eq. now destruct (String.eqb t "").
Qed.

(** ** [validar_fechas] *)

Lemma norm_fecha_txt_spec (s : option string) :
  norm_fecha_txt s
  = if blank s then Ok None
    else match parse_fecha s with
         | Some d => Ok (Some (strftime_ymd d))
         | None => Raise fecha_invalida
         end.
Proof. destruct s; reflexivity. Qed.

Lemma falsy_blank (s : option string) : falsy s = true -> blank s = true.
Proof.
  destruct s as [t|]; [|reflexivity]. cbn [falsy blank].
  now intros ->%String.eqb_eq.
Qed.

(** The normalised exit text: nothing for a blank text. *)
Lemma norm_salida (s : option string) :
  (if falsy s then Ok None else norm_fecha_txt s)
  = if blank s then Ok None
    else match parse_fecha s with
         | Some d => Ok (Some (strftime_ymd d))
         | None => Raise fecha_invalida
         end.
Proof.
  rewrite norm_fecha_txt_spec. destruct (falsy s) eqn:E; [|reflexivity].
  now rewrite (falsy_blank s E).
Qed.

Lemma falsy_strftime (d : date) : falsy (Some (strftime_ymd d)) = false.
Proof.
  unfold strftime_ymd, year_text, pad4, pad2.
  destruct (year d <? 10); [reflexivity|].
  destruct (year d <? 100); [reflexivity|].
  destruct (year d <? 1000); reflexivity.
Qed.

Lemma four_digit_year_spec (s : option string) (d : date) :
  four_digit_year s = true -> parse_fecha s = Some d -> 1000 <= year d.
Proof. unfold four_digit_year. intros H E. rewrite E in H. lia. Qed.

(** With an entry date in hand: the result by cases on the exit text. *)
Lemma validar_fechas_entry (ent sal : option string) (de : date) :
  four_digit_year ent = true -> four_digit_year sal = true ->
  blank ent = false -> parse_fecha ent = Some de ->
  validar_fechas ent sal
  = if blank sal then Ok (Some (strftime_ymd de), None)
    else match parse_fecha sal with
         | None => Raise fecha_invalida
         | Some ds =>
             if date_ltb ds de then Raise salida_antes
             else Ok (Some (strftime_ymd de), Some (strftime_ymd ds))
         end.
Proof.
  intros Hye Hys Hb He. pose proof (parse_fecha_valid _ _ He) as Hv.
  pose proof (four_digit_year_spec _ _ Hye He) as Hy.
  unfold validar_fechas. rewrite norm_fecha_txt_spec, Hb, He, norm_salida.
  cbn [res_bind]. destruct (blank sal).
  - cbn [res_bind falsy]. reflexivity.
  - destruct (parse_fecha sal) as [ds|] eqn:Es; [|reflexivity].
    pose proof (parse_fecha_valid _ _ Es) as Hvs.
    pose proof (four_digit_year_spec _ _ Hys Es) as Hy'. cbn [res_bind].
    rewrite (falsy_strftime ds), !parse_fecha_strftime by assumption.
    cbn [date_lt_opt res_bind]. reflexivity.
Qed.

Lemma validar_fechas_entry_invalid (ent sal : option string) :
  blank ent = false -> parse_fecha ent = None ->
  validar_fechas ent sal = Raise fecha_invalida.
Proof.
  intros Hb He. unfold validar_fechas.
  now rewrite norm_fecha_txt_spec, Hb, He.
Qed.

(** With a blank entry text: the result by cases on the exit text. *)
Lemma validar_fechas_no_entry (ent sal : option string) :
  four_digit_year sal = true -> blank ent = true ->
  validar_fechas ent sal
  = if blank sal then Ok (None, None)
    else match parse_fecha sal with
         | None => Raise fecha_invalida
         | Some ds => Raise no_order_with_none
         end.
Proof.
  intros Hys Hb. unfold validar_fechas.
  rewrite norm_fecha_txt_spec, Hb, norm_salida.
  cbn [res_bind]. destruct (blank sal).
  - reflexivity.
  - destruct (parse_fecha sal) as [ds|] eqn:Es; [|reflexivity].
    pose proof (parse_fecha_valid _ _ Es) as Hvs.
    pose proof (four_digit_year_spec _ _ Hys Es) as Hy. cbn [res_bind].
    rewrite (falsy_strftime ds), !parse_fecha_strftime by assumption.
    reflexivity.
Qed.

(** C7, as stated, fails: with no entry text and the exit text
    "2025-06-01" the call raises [TypeError], which is neither of the two
    documented errors; and so does the call on the entry text "0999-01-01",
    whose normal form "999-01-01" is no date any more, with the exit text
    "2025-01-01". *)
Lemma validar_fechas_third_error :
  validar_fechas None (Some "2025-06-01") = Raise no_order_with_none
  /\ validar_fechas None (Some "2025-06-01") <> Raise fecha_invalida
  /\ validar_fechas None (Some "2025-06-01") <> Raise salida_antes
  /\ (forall r, validar_fechas None (Some "2025-06-01") <> Ok r)
  /\ blank (Some "0999-01-01") = false
  /\ norm_fecha_txt (Some "0999-01-01") = Ok (Some "999-01-01")
  /\ parse_fecha (Some "999-01-01") = None
  /\ validar_fechas (Some "0999-01-01") (Some "2025-01-01")
     = Raise no_order_with_none.
Proof.
  assert (E : validar_fechas None (Some "2025-06-01")
              = Raise no_order_with_none) by (vm_compute; reflexivity).
  rewrite E. repeat split; try discriminate; vm_compute; reflexivity.
Qed.

(** C7, amended. When the entry text is not blank and the dates read are of
    year 1000 or later, [validar_fechas] fails in exactly two ways: with the
    invalid-date [ValueError] when the entry text, or a non-blank exit text,
    is no date; with the order [ValueError] when both texts are dates and
    the exit date is before the entry date.  The call on "2025-06-10" and
    "2025-06-01" fails with the order error. *)
Theorem validar_fechas_errors (ent sal : option string) :
  blank ent = false ->
  four_digit_year ent = true -> four_digit_year sal = true ->
  (validar_fechas ent sal = Raise fecha_invalida <->
     parse_fecha ent = None \/ (blank sal = false /\ parse_fecha sal = None))
  /\ (validar_fechas ent sal = Raise salida_antes <->
        exists de ds,
          parse_fecha ent = Some de /\ parse_fecha sal = Some ds
          /\ date_ltb ds de = true)
  /\ ((exists r, validar_fechas ent sal = Ok r)
      \/ validar_fechas ent sal = Raise fecha_invalida
      \/ validar_fechas ent sal = Raise salida_antes)
  /\ validar_fechas (Some "2025-06-10") (Some "2025-06-01")
     = Raise salida_antes.
Proof.
  intros Hb Hye Hys. destruct (parse_fecha ent) as [de|] eqn:He.
  - rewrite (validar_fechas_entry ent sal de Hye Hys Hb He).
    destruct (blank sal) eqn:Hs.
    + rewrite (parse_fecha_blank sal Hs). repeat split.
      * discriminate.
      * intros [? | [? ?]]; discriminate.
      * discriminate.
      * intros (? & ? & _ & ? & _). discriminate.
      * left. eexists. reflexivity.
    + destruct (parse_fecha sal) as [ds|] eqn:Es.
      * destruct (date_ltb ds de) eqn:Hlt; repeat split;
          try discriminate; try (intros [? | [? ?]]; discriminate); auto.
        -- intros _. exists de, ds. auto.
        -- intros (de' & ds' & [= <-] & [= <-] & Hlt'). congruence.
        -- left. eexists. reflexivity.
      * repeat split; try discriminate; auto.
        intros (? & ? & _ & ? & _). discriminate.
  - rewrite (validar_fechas_entry_invalid ent sal Hb He). repeat split; auto.
    + discriminate.
    + intros (? & ? & ? & _). discriminate.
Qed.

Lemma validar_fechas_errors_witness :
  blank (Some "10/06/2025") = false
  /\ four_digit_year (Some "10/06/2025") = true
  /\ four_digit_year (Some "01/06/2025") = true
  /\ (validar_fechas (Some "10/06/2025") (Some "01/06/2025")
      = Raise salida_antes <->
      exists de ds,
        parse_fecha (Some "10/06/2025") = Some de
        /\ parse_fecha (Some "01/06/2025") = Some ds
        /\ date_ltb ds de = true).
Proof.
  split; [reflexivity|]. split; [reflexivity|]. split; [reflexivity|].
  apply (validar_fechas_errors (Some "10/06/2025") (Some "01/06/2025"));
    reflexivity.
Defined.

(** C10, as stated, fails: with no entry text and the exit text
    "0999-01-01", which is a date, the call raises nothing.  The exit text
    is normalised to "999-01-01", which is no date any more, so no
    comparison is made. *)
Lemma validar_fechas_blank_entry_early_year :
  blank None = true
  /\ blank (Some "0999-01-01") = false
  /\ parse_fecha (Some "0999-01-01") = Some (mk_date 999 1 1)
  /\ valid_date (mk_date 999 1 1) = true
  /\ validar_fechas None (Some "0999-01-01") = Ok (None, Some "999-01-01").
Proof. repeat split; vm_compute; reflexivity. Qed.

(** C10, amended. With a blank or absent entry text and an exit text that
    is a date of year 1000 or later, [validar_fechas] raises [TypeError]
    (the comparison of a date with [None]), which is neither of the two
    [ValueError]s; with both texts blank it returns [(None, None)]: it never
    demands an entry date. *)
Theorem validar_fechas_blank_entry (ent sal : option string) :
  blank ent = true ->
  (forall ds, parse_fecha sal = Some ds -> 1000 <= year ds ->
     validar_fechas ent sal = Raise no_order_with_none
     /\ validar_fechas ent sal <> Raise fecha_invalida
     /\ validar_fechas ent sal <> Raise salida_antes)
  /\ (blank sal = true -> validar_fechas ent sal = Ok (None, None)).
Proof.
  intros Hb. split.
  - intros ds Es Hy.
    assert (Hys : four_digit_year sal = true)
      by (unfold four_digit_year; rewrite Es; lia).
    rewrite (validar_fechas_no_entry ent sal Hys Hb).
    destruct (blank sal) eqn:Hs.
    + rewrite (parse_fecha_blank sal Hs) in Es. discriminate.
    + rewrite Es. repeat split; discriminate.
  - intros Hs.
    assert (Hys : four_digit_year sal = true)
      by (unfold four_digit_year; now rewrite (parse_fecha_blank sal Hs)).
    rewrite (validar_fechas_no_entry ent sal Hys Hb). now rewrite Hs.
Qed.

Lemma validar_fechas_blank_entry_witness :
  blank (Some "  ") = true
  /\ parse_fecha (Some "01/06/2025") = Some (mk_date 2025 6 1)
  /\ validar_fechas (Some "  ") (Some "01/06/2025") = Raise no_order_with_none.
Proof.
  split; [reflexivity|]. split; [reflexivity|].
  apply (proj1 (validar_fechas_blank_entry (Some "  ") (Some "01/06/2025")
                  eq_refl) (mk_date 2025 6 1)); [reflexivity|].
  cbn [year]. lia.
Defined.

(** ** [expected_hours] *)

Lemma py_max_Qmax (a b : Q) : (py_max a b == Qmax a b)%Q.
Proof.
  unfold py_max. destruct (Qlt_le_dec a b) as [H | H].
  - symmetry. apply Q.max_r. lra.
  - symmetry. apply Q.max_l. exact H.
Qed.

(** The two dictionaries against the table. *)
Lemma productivity_lookup (fase : string) :
  (default 0 (RATIOS_H_PREDIO !! upper fase) == fst (phase_productivity fase))%Q
  /\ (default 0 (MIN_HORAS !! upper fase) == snd (phase_productivity fase))%Q.
Proof.
  unfold phase_productivity.
  destruct (String.eqb_spec (upper fase) "CAMPO") as [-> | N1];
    [split; reflexivity|].
  destruct (String.eqb_spec (upper fase) "ENTREGAS") as [-> | N2];
    [split; reflexivity|].
  destruct (String.eqb_spec (upper fase) "JURIDICO") as [-> | N3];
    [split; reflexivity|].
  destruct (String.eqb_spec (upper fase) "POSTCAMPO") as [-> | N4];
    [split; reflexivity|].
  unfold RATIOS_H_PREDIO, MIN_HORAS.
  rewrite !lookup_insert_ne, !lookup_singleton_ne by congruence.
  split; reflexivity.
Qed.

Lemma int_or_0_unit_count (n : pyval) :
  (let* k := int_or_0 n in Ok (Z.max k 0)) = unit_count n.
Proof.
  destruct n as [|z|s]; unfold int_or_0, truthy, unit_count.
  - reflexivity.
  - destruct (Z.eqb_spec z 0) as [-> | N]; reflexivity.
  - destruct (String.eqb s ""); reflexivity.
Qed.


Lemma int_to_float_cases (k : Z) :
  int_to_float (Z.max k 0)
  = if k <? FLOAT_LIMIT then Ok (inject_Z (Z.max k 0)) else Raise int_too_large.
Proof.
  unfold int_to_float.
  assert (L : 0 < FLOAT_LIMIT) by (vm_compute; reflexivity).
  destruct (Z.ltb_spec (Z.abs (Z.max k 0)) FLOAT_LIMIT),
    (Z.ltb_spec k FLOAT_LIMIT); try reflexivity; lia.
Qed.

Lemma expected_hours_unit_count (fase : option string) (n : pyval) :
  expected_hours fase n
  = let* k := unit_count n in
    let* x := int_to_float k in
    Ok (py_round
          (Qmax (x * fst (phase_productivity (default "" fase)))
             (snd (phase_productivity (default "" fase)))) 2).
Proof.
  unfold expected_hours. rewrite <- int_or_0_unit_count.
  destruct (int_or_0 n) as [k| |]; cbn [res_bind]; try reflexivity.
  destruct (int_to_float (Z.max k 0)) as [x| |]; cbn [res_bind];
    try reflexivity.
  f_equal. apply py_round_compat.
  destruct (productivity_lookup (default "" fase)) as [E1 E2].
  rewrite py_max_Qmax, E1, E2. reflexivity.
Qed.

(** *** On doubles *)






(** 12 deliveries: [12 * (8.5 / 80.0)] is the double just below 1.275, and
    the result is 1.27. *)
Example expected_hours_entregas_12 :
  Binary64.expected_hours (Some "ENTREGAS") (PyInt 12)
  = Ok (Binary64.nearest 127 100).
Proof. vm_compute. reflexivity. Qed.

Example expected_hours_campo_30 :
  Binary64.expected_hours (Some "CAMPO") (PyInt 30)
  = Ok (Binary64.nearest 425 10).
Proof. vm_compute. reflexivity. Qed.

Example expected_hours_entregas_1 :
  Binary64.expected_hours (Some "entregas") (PyInt 1)
  = Ok (Binary64.nearest 5 10).
Proof. vm_compute. reflexivity. Qed.

(** ** [real_hours] and [kpis_fila] *)

Lemma bhb_total (H : gset string) (d0 : date) (e : datetime) :
  valid_date d0 = true -> valid_date (dt_date e) = true ->
  exists h, business_hours_between H (Some d0) (Some e) = Ok h.
Proof.
  intros Hd He. rewrite bhb_unfold.
  destruct (bhb_loop_enough_fuel H
              (Z.to_nat (toordinal (dt_date e) - toordinal d0))
              (dt_date e) d0 0%Q Hd He) as [t ->]; [lia|].
  eexists. reflexivity.
Qed.

Lemma real_hours_total (H : gset string) (now : datetime)
  (f_ent f_sal : option string) :
  valid_datetime now = true ->
  exists h, real_hours H now f_ent f_sal = Ok h.
Proof.
  intros [Hn _]%valid_datetime_fields. unfold real_hours.
  destruct (parse_fecha f_ent) as [d0|] eqn:E0; [|eexists; reflexivity].
  apply bhb_total; [eapply parse_fecha_valid; eassumption|].
  destruct (falsy f_sal); [exact Hn|].
  destruct (parse_fecha f_sal) as [d|] eqn:E1; [|exact Hn].
  cbn [dt_date]. eapply parse_fecha_valid; eassumption.
Qed.


(** *** On doubles *)







(** On doubles: 4.25 expected hours, 19.0 real hours, 447.1 percent. *)
Example kpis_fila_float_campo :
  Binary64.kpis_fila ∅ (combine (mk_date 2025 6 4) (mk_time 10 0 0 0))
    (Some "CAMPO") (PyInt 3) (Some "2025-06-02") None
  = Ok (Binary64.nearest 425 100, Binary64.of_Z 19,
        Binary64.nearest 4471 10, true).
Proof. vm_compute. reflexivity. Qed.

Example kpis_fila_float_unknown_phase :
  Binary64.kpis_fila ∅ (combine (mk_date 2025 6 4) (mk_time 10 0 0 0))
    (Some "XYZ") (PyInt 3) (Some "2025-06-02") None
  = Ok (Binary64.zero, Binary64.of_Z 19, Binary64.zero, true).
Proof. vm_compute. reflexivity. Qed.

Example kpis_fila_unknown_phase :
  kpis_fila ∅ (combine (mk_date 2025 6 4) (mk_time 10 0 0 0))
    (Some "XYZ") (PyInt 3) (Some "2025-06-02") None
  = Ok (0%Q, 19%Q, 0%Q, true).
Proof. vm_compute. reflexivity. Qed.

Example kpis_fila_campo :
  kpis_fila ∅ (combine (mk_date 2025 6 4) (mk_time 10 0 0 0))
    (Some "CAMPO") (PyInt 3) (Some "2025-06-02") None
  = Ok (17 # 4, 19%Q, 4471 # 10, true).
Proof. vm_compute. reflexivity. Qed.

(** * Further properties *)

(** ** [parse_fecha] and [norm_fecha_txt] *)

Lemma blank_strftime (d : date) :
  valid_date d = true -> 1000 <= year d ->
  blank (Some (strftime_ymd d)) = false.
Proof.
  intros Hv Hy. destruct (strip_strftime d Hv Hy) as [Hs (c & s & E)].
  cbn [blank]. rewrite Hs, E. reflexivity.
Qed.

Lemma parse_fecha_not_blank (s : option string) (d : date) :
  parse_fecha s = Some d -> blank s = false.
Proof.
  intros E. destruct (blank s) eqn:B; [|reflexivity].
  rewrite (parse_fecha_blank s B) in E. discriminate.
Qed.

(** X1. A text that [parse_fecha] reads as a date is normalised to the
    [YYYY-MM-DD] text of that date, which exists in the calendar; when the
    date is of year 1000 or later, that text reads back as the same date
    and is left unchanged by a second normalisation. *)
Theorem norm_fecha_txt_roundtrip (s : option string) (d : date) :
  parse_fecha s = Some d ->
  valid_date d = true
  /\ norm_fecha_txt s = Ok (Some (strftime_ymd d))
  /\ (1000 <= year d ->
      parse_fecha (Some (strftime_ymd d)) = Some d
      /\ norm_fecha_txt (Some (strftime_ymd d)) = Ok (Some (strftime_ymd d))).
Proof.
  intros E. pose proof (parse_fecha_valid s d E) as Hv.
  split; [exact Hv|]. split; [|intros Hy; split].
  - now rewrite norm_fecha_txt_spec, (parse_fecha_not_blank s d E), E.
  - now apply parse_fecha_strftime.
  - now rewrite norm_fecha_txt_spec, (blank_strftime d Hv Hy),
      (parse_fecha_strftime d Hv Hy).
Qed.

Lemma norm_fecha_txt_roundtrip_witness :
  parse_fecha (Some " 5/6/2025 ") = Some (mk_date 2025 6 5)
  /\ norm_fecha_txt (Some " 5/6/2025 ") = Ok (Some "2025-06-05")
  /\ parse_fecha (Some "2025-06-05") = Some (mk_date 2025 6 5)
  /\ norm_fecha_txt (Some "2025-06-05") = Ok (Some "2025-06-05").
Proof.
  split; [reflexivity|].
  destruct (norm_fecha_txt_roundtrip (Some " 5/6/2025 ") (mk_date 2025 6 5)
              eq_refl) as (_ & H1 & H2).
  split; [exact H1|]. apply H2. cbn [year]. lia.
Defined.

(** Before year 1000 the text of a date has a shorter year and is no date
    any more: a second normalisation fails. *)
Example norm_fecha_txt_year_999 :
  norm_fecha_txt (Some "0999-01-01") = Ok (Some "999-01-01")
  /\ norm_fecha_txt (Some "999-01-01") = Raise fecha_invalida.
Proof. split; vm_compute; reflexivity. Qed.

Lemma pad2_digits (n : Z) :
  0 <= n <= 99 ->
  exists c1 c2 k1 k2,
    pad2 n = String c1 (String c2 "")
    /\ digit_val c1 = Some k1 /\ digit_val c2 = Some k2.
Proof.
  intros Hn. unfold pad2. do 4 eexists. split; [reflexivity|].
  split; apply digit_val_digit_char; Z.to_euclidean_division_equations; lia.
Qed.

Lemma pad4_last_digit (n : Z) :
  0 <= n <= 9999 ->
  exists c1 c2 c3 c4 k,
    pad4 n = String c1 (String c2 (String c3 (String c4 "")))
    /\ digit_val c4 = Some k.
Proof.
  intros Hn. unfold pad4, pad2. do 5 eexists. split; [reflexivity|].
  apply digit_val_digit_char; Z.to_euclidean_division_equations; lia.
Qed.

(** A text of two digits, a slash, two digits, a slash and four digits is
    not empty, has no white space to strip, and does not start with four
    digits. *)
Lemma slash_text_shape (a b y : Z) :
  0 <= a <= 99 -> 0 <= b <= 99 -> 0 <= y <= 9999 ->
  let t := pad2 a +:+ "/" +:+ pad2 b +:+ "/" +:+ pad4 y in
  String.eqb t "" = false /\ strip t = t /\ re_Y t = [].
Proof.
  intros Ha Hb Hy.
  destruct (pad2_digits a Ha) as (a1 & a2 & ka1 & ka2 & -> & Ea1 & Ea2).
  destruct (pad2_digits b Hb) as (b1 & b2 & kb1 & kb2 & -> & Eb1 & Eb2).
  destruct (pad4_last_digit y Hy) as (y1 & y2 & y3 & y4 & k & -> & Ey).
  cbv zeta. rewrite !append_String, !append_empty.
  split; [reflexivity|]. split.
  - unfold strip. cbn [lstrip]. rewrite (digit_not_space _ _ Ea1).
    repeat (apply rstrip_String_nonspace; [|right; discriminate]).
    apply rstrip_String_nonspace; [reflexivity|]. left.
    eapply digit_not_space; eassumption.
  - unfold re_Y. rewrite Ea1, Ea2. reflexivity.
Qed.

Lemma strptime_no_match (s : string) (fmt : date_format) :
  format_regex fmt s = [] -> catch_all (strptime s fmt) = None.
Proof. intros E. unfold strptime. now rewrite E. Qed.

Lemma format_regex_Y_m_d_nil (s : string) :
  re_Y s = [] -> format_regex Y_m_d s = [].
Proof. intros E. unfold format_regex. now rewrite E. Qed.

(** The first match of [%d/%m/%Y] on a date written day first. *)
Lemma format_regex_dmy (d : date) :
  valid_date d = true ->
  exists rest,
    format_regex d_m_Y (dmy_text d) = (year d, month d, day d, "") :: rest.
Proof.
  intros (Hy & Hm & Hd)%valid_date_fields.
  pose proof (days_in_month_bounds (year d) _ Hm) as Hb.
  unfold dmy_text, format_regex.
  destruct (re_d_pad2 (day d) ("/" +:+ pad2 (month d) +:+ "/" +:+ pad4 (year d)))
    as [rd ->]; [lia|].
  rewrite bind_cons. cbv beta iota.
  rewrite append_String, append_empty, lit_match, bind_cons.
  destruct (re_m_pad2 (month d) ("/" +:+ pad4 (year d)) Hm) as [rm ->].
  rewrite bind_cons. cbv beta iota.
  rewrite append_String, append_empty, lit_match, bind_cons.
  pose proof (re_Y_pad4 (year d) "") as HY.
  change (pad4 (year d) +:+ "") with (pad4 (year d)) in HY.
  rewrite HY by lia. rewrite bind_cons. cbv beta iota.
  rewrite <- !app_comm_cons. eexists. reflexivity.
Qed.

(** X2. A date written day first, [DD/MM/YYYY], is read as that date: the
    day-first format is tried before the month-first one, so a text such as
    03/04/2025 is 3 April, never 4 March. *)
Theorem parse_fecha_day_first (d : date) :
  valid_date d = true -> parse_fecha (Some (dmy_text d)) = Some d.
Proof.
  intros Hv. pose proof Hv as (Hy & Hm & Hd)%valid_date_fields.
  pose proof (days_in_month_bounds (year d) _ Hm) as Hb.
  destruct (slash_text_shape (day d) (month d) (year d))
    as (Hne & Hs & HY); try lia.
  fold (dmy_text d) in Hne, Hs, HY.
  unfold parse_fecha. rewrite Hne, Hs. cbn [first_format].
  rewrite (strptime_no_match _ Y_m_d (format_regex_Y_m_d_nil _ HY)).
  unfold strptime. destruct (format_regex_dmy d Hv) as [rest ->].
  cbn [String.eqb]. unfold new_date.
  destruct d as [y m dd]. cbn [year month day] in *. now rewrite Hv.
Qed.

Lemma parse_fecha_day_first_witness :
  valid_date (mk_date 2025 4 3) = true
  /\ parse_fecha (Some "03/04/2025") = Some (mk_date 2025 4 3).
Proof.
  split; [reflexivity|].
  apply (parse_fecha_day_first (mk_date 2025 4 3)). reflexivity.
Defined.

Lemma late_day_cases (d : Z) :
  13 <= d <= 31 ->
  d = 13 \/ d = 14 \/ d = 15 \/ d = 16 \/ d = 17 \/ d = 18 \/ d = 19 \/
  d = 20 \/ d = 21 \/ d = 22 \/ d = 23 \/ d = 24 \/ d = 25 \/ d = 26 \/
  d = 27 \/ d = 28 \/ d = 29 \/ d = 30 \/ d = 31.
Proof. lia. Qed.

(** With a number above 12 in the second place, [%d/%m/%Y] has no match:
    the second field is no month. *)
Lemma format_regex_dmy_late_day (m d : Z) (r : string) :
  1 <= m <= 12 -> 13 <= d <= 31 ->
  format_regex d_m_Y (pad2 m +:+ "/" +:+ pad2 d +:+ "/" +:+ r) = [].
Proof.
  intros Hm Hd. apply late_day_cases in Hd.
  split_month Hm;
    repeat (destruct Hd as [-> | Hd]; [reflexivity|]); subst; reflexivity.
Qed.

(** The first match of [%m/%d/%Y] on a date written month first. *)
Lemma format_regex_mdy (d : date) :
  valid_date d = true ->
  exists rest,
    format_regex m_d_Y (mdy_text d) = (year d, month d, day d, "") :: rest.
Proof.
  intros (Hy & Hm & Hd)%valid_date_fields.
  pose proof (days_in_month_bounds (year d) _ Hm) as Hb.
  unfold mdy_text, format_regex.
  destruct (re_m_pad2 (month d) ("/" +:+ pad2 (day d) +:+ "/" +:+ pad4 (year d))
              Hm) as [rm ->].
  rewrite bind_cons. cbv beta iota.
  rewrite append_String, append_empty, lit_match, bind_cons.
  destruct (re_d_pad2 (day d) ("/" +:+ pad4 (year d))) as [rd ->]; [lia|].
  rewrite bind_cons. cbv beta iota.
  rewrite append_String, append_empty, lit_match, bind_cons.
  pose proof (re_Y_pad4 (year d) "") as HY.
  change (pad4 (year d) +:+ "") with (pad4 (year d)) in HY.
  rewrite HY by lia. rewrite bind_cons. cbv beta iota.
  rewrite <- !app_comm_cons. eexists. reflexivity.
Qed.

(** X3. A date written month first, [MM/DD/YYYY], is read as that date when
    its day is above 12: the day-first format then has no match and the
    month-first format is reached. *)
Theorem parse_fecha_month_first (d : date) :
  valid_date d = true -> 12 < day d ->
  parse_fecha (Some (mdy_text d)) = Some d.
Proof.
  intros Hv Hlate. pose proof Hv as (Hy & Hm & Hd)%valid_date_fields.
  pose proof (days_in_month_bounds (year d) _ Hm) as Hb.
  destruct (slash_text_shape (month d) (day d) (year d))
    as (Hne & Hs & HY); try lia.
  fold (mdy_text d) in Hne, Hs, HY.
  unfold parse_fecha. rewrite Hne, Hs. cbn [first_format].
  rewrite (strptime_no_match _ Y_m_d (format_regex_Y_m_d_nil _ HY)).
  rewrite (strptime_no_match (mdy_text d) d_m_Y)
    by (apply format_regex_dmy_late_day; lia).
  unfold strptime. destruct (format_regex_mdy d Hv) as [rest ->].
  cbn [String.eqb]. unfold new_date.
  destruct d as [y m dd]. cbn [year month day] in *. now rewrite Hv.
Qed.

Lemma parse_fecha_month_first_witness :
  valid_date (mk_date 2025 12 25) = true /\ 12 < 25
  /\ parse_fecha (Some "12/25/2025") = Some (mk_date 2025 12 25).
Proof.
  split; [reflexivity|]. split; [lia|].
  apply (parse_fecha_month_first (mk_date 2025 12 25)); [reflexivity | cbn; lia].
Defined.

(** ** [validar_fechas] and [_validar] *)

Lemma four_digit_year_strftime (d : date) :
  valid_date d = true -> 1000 <= year d ->
  four_digit_year (Some (strftime_ymd d)) = true.
Proof.
  intros Hv Hy. unfold four_digit_year.
  rewrite (parse_fecha_strftime d Hv Hy). lia.
Qed.

Lemma four_digit_year_blank (s : option string) :
  blank s = true -> four_digit_year s = true.
Proof.
  intros Hb. unfold four_digit_year. now rewrite (parse_fecha_blank s Hb).
Qed.

(** X4. When [validar_fechas] returns a pair of texts for dates of year
    1000 or later, validating that pair again returns it unchanged; and
    when the pair holds an exit text it also holds an entry text, both read
    as dates, and the entry date is not after the exit date. *)
Theorem validar_fechas_result (ent sal a b : option string) :
  four_digit_year ent = true -> four_digit_year sal = true ->
  validar_fechas ent sal = Ok (a, b) ->
  validar_fechas a b = Ok (a, b)
  /\ (forall tb, b = Some tb ->
        exists de ds,
          parse_fecha a = Some de /\ parse_fecha b = Some ds
          /\ date_leb de ds = true).
Proof.
  intros Hye Hys. destruct (blank ent) eqn:Hb.
  - rewrite (validar_fechas_no_entry ent sal Hys Hb).
    destruct (blank sal); [|destruct (parse_fecha sal); discriminate].
    intros [= <- <-]. split; [reflexivity | discriminate].
  - destruct (parse_fecha ent) as [de|] eqn:He;
      [|rewrite (validar_fechas_entry_invalid ent sal Hb He); discriminate].
    pose proof (parse_fecha_valid _ _ He) as Hv.
    pose proof (four_digit_year_spec _ _ Hye He) as Hy.
    rewrite (validar_fechas_entry ent sal de Hye Hys Hb He).
    destruct (blank sal) eqn:Hs.
    + intros [= <- <-]. split; [|discriminate].
      rewrite (validar_fechas_entry _ None de
                 (four_digit_year_strftime de Hv Hy) eq_refl
                 (blank_strftime de Hv Hy) (parse_fecha_strftime de Hv Hy)).
      reflexivity.
    + destruct (parse_fecha sal) as [ds|] eqn:Es; [|discriminate].
      pose proof (parse_fecha_valid _ _ Es) as Hvs.
      pose proof (four_digit_year_spec _ _ Hys Es) as Hy'.
      destruct (date_ltb ds de) eqn:Hlt; [discriminate|].
      intros [= <- <-]. split.
      * rewrite (validar_fechas_entry _ (Some (strftime_ymd ds)) de
                   (four_digit_year_strftime de Hv Hy)
                   (four_digit_year_strftime ds Hvs Hy')
                   (blank_strftime de Hv Hy) (parse_fecha_strftime de Hv Hy)).
        now rewrite (blank_strftime ds Hvs Hy'),
          (parse_fecha_strftime ds Hvs Hy'), Hlt.
      * intros tb _. exists de, ds.
        rewrite !parse_fecha_strftime by assumption.
        split; [reflexivity|]. split; [reflexivity|].
        now apply date_ltb_false_leb.
Qed.

Lemma validar_fechas_result_witness :
  four_digit_year (Some "1/6/2025") = true
  /\ four_digit_year (Some "10/6/2025") = true
  /\ validar_fechas (Some "1/6/2025") (Some "10/6/2025")
     = Ok (Some "2025-06-01", Some "2025-06-10")
  /\ validar_fechas (Some "2025-06-01") (Some "2025-06-10")
     = Ok (Some "2025-06-01", Some "2025-06-10").
Proof.
  split; [reflexivity|]. split; [reflexivity|]. split; [reflexivity|].
  apply (validar_fechas_result (Some "1/6/2025") (Some "10/6/2025"));
    reflexivity.
Defined.

(** Before year 1000 the pair returned is not accepted again. *)
Example validar_fechas_year_999 :
  validar_fechas (Some "0999-01-01") None = Ok (Some "999-01-01", None)
  /\ validar_fechas (Some "999-01-01") None = Raise fecha_invalida.
Proof. split; vm_compute; reflexivity. Qed.

(** X5. [_validar] does not demand an entry date: with the three required
    texts filled in and both date texts blank it accepts the form and hands
    back no dates; with a blank entry text and an exit text that is a date
    of year 1000 or later it refuses the form with the message of the
    [TypeError]. *)
Theorem form_validar_blank_entry (in_id in_lote in_muni in_fent in_fsal : string) :
  in_id <> "" -> in_lote <> "" -> in_muni <> "" ->
  blank (Some in_fent) = true ->
  (blank (Some in_fsal) = true ->
   _validar in_id in_lote in_muni in_fent in_fsal
   = Ok (true, inr (None, None)))
  /\ (forall ds, parse_fecha (Some in_fsal) = Some ds -> 1000 <= year ds ->
      _validar in_id in_lote in_muni in_fent in_fsal
      = Ok (false, inl (exn_str no_order_with_none))).
Proof.
  intros Hid Hlo Hmu Hb. unfold _validar.
  destruct (String.eqb_spec in_id ""); [contradiction|].
  destruct (String.eqb_spec in_lote ""); [contradiction|].
  destruct (String.eqb_spec in_muni ""); [contradiction|].
  split.
  - intros Hs.
    rewrite (validar_fechas_no_entry _ (Some in_fsal)
               (four_digit_year_blank _ Hs) Hb).
    now rewrite Hs.
  - intros ds Es Hy.
    assert (Hys : four_digit_year (Some in_fsal) = true)
      by (unfold four_digit_year; rewrite Es; lia).
    rewrite (validar_fechas_no_entry _ (Some in_fsal) Hys Hb).
    now rewrite (parse_fecha_not_blank _ _ Es), Es.
Qed.

Lemma form_validar_blank_entry_witness :
  _validar "P-1" "L-1" "Cali" "" "  " = Ok (true, inr (None, None))
  /\ _validar "P-1" "L-1" "Cali" "" "2025-06-01"
     = Ok (false, inl (exn_str no_order_with_none)).
Proof.
  destruct (form_validar_blank_entry "P-1" "L-1" "Cali" "" "  "
              ltac:(discriminate) ltac:(discriminate) ltac:(discriminate)
              eq_refl) as [H1 _].
  destruct (form_validar_blank_entry "P-1" "L-1" "Cali" "" "2025-06-01"
              ltac:(discriminate) ltac:(discriminate) ltac:(discriminate)
              eq_refl) as [_ H2].
  split; [apply H1; reflexivity|].
  apply (H2 (mk_date 2025 6 1)); [reflexivity | cbn [year]; lia].
Defined.

(** Before year 1000 the form is accepted, with an exit text that is no
    date. *)
Example form_validar_year_999 :
  _validar "P-1" "L-1" "Cali" "" "0999-01-01"
  = Ok (true, inr (None, Some "999-01-01")).
Proof. vm_compute. reflexivity. Qed.

(** ** [clamp_to_workday] *)

Lemma valid_time_HORA_INICIO : valid_time HORA_INICIO = true.
Proof. reflexivity. Qed.

Lemma valid_time_HORA_FIN : valid_time HORA_FIN = true.
Proof. reflexivity. Qed.

Lemma datetime_ltb_same_date (d : date) (a b : time) :
  valid_time a = true -> valid_time b = true ->
  datetime_ltb (combine d a) (combine d b) = (time_us a <? time_us b).
Proof.
  intros Ha Hb. unfold datetime_ltb. cbn [dt_date dt_time].
  now rewrite date_ltb_irrefl, date_eqb_refl, (time_ltb_us a b Ha Hb).
Qed.

(** X6. [clamp_to_workday] keeps the date, returns an instant that is
    neither before 08:00 nor after 16:30 of that date, leaves an instant of
    the work window unchanged, and clamping twice is clamping once. *)
Theorem clamp_to_workday_window (dt : datetime) :
  valid_time (dt_time dt) = true ->
  let start := combine (dt_date dt) HORA_INICIO in
  let end_ := combine (dt_date dt) HORA_FIN in
  dt_date (clamp_to_workday dt) = dt_date dt
  /\ datetime_ltb (clamp_to_workday dt) start = false
  /\ datetime_ltb end_ (clamp_to_workday dt) = false
  /\ (datetime_ltb dt start = false -> datetime_ltb end_ dt = false ->
      clamp_to_workday dt = dt)
  /\ clamp_to_workday (clamp_to_workday dt) = clamp_to_workday dt.
Proof.
  intros Hv start end_. destruct dt as [d t]. cbn [dt_date dt_time] in *.
  subst start end_. unfold clamp_to_workday. cbn [dt_date dt_time].
  pose proof valid_time_HORA_INICIO as Hi. pose proof valid_time_HORA_FIN as Hf.
  rewrite !(datetime_ltb_same_date d) by assumption.
  change (time_us HORA_INICIO) with 28800000000.
  change (time_us HORA_FIN) with 59400000000.
  destruct (time_us t <? 28800000000) eqn:E1;
    [|destruct (59400000000 <? time_us t) eqn:E2];
    cbn [dt_date dt_time];
    rewrite ?(datetime_ltb_same_date d) by assumption;
    change (time_us HORA_INICIO) with 28800000000;
    change (time_us HORA_FIN) with 59400000000;
    rewrite ?E1, ?E2; cbn [dt_date dt_time];
    repeat split; try reflexivity; try discriminate; try lia.
Qed.

Lemma clamp_to_workday_window_witness :
  valid_time (mk_time 19 45 0 0) = true
  /\ let dt := combine (mk_date 2025 6 4) (mk_time 19 45 0 0) in
     dt_date (clamp_to_workday dt) = mk_date 2025 6 4
     /\ datetime_ltb (clamp_to_workday dt)
          (combine (mk_date 2025 6 4) HORA_INICIO) = false
     /\ datetime_ltb (combine (mk_date 2025 6 4) HORA_FIN)
          (clamp_to_workday dt) = false
     /\ (datetime_ltb dt (combine (mk_date 2025 6 4) HORA_INICIO) = false ->
         datetime_ltb (combine (mk_date 2025 6 4) HORA_FIN) dt = false ->
         clamp_to_workday dt = dt)
     /\ clamp_to_workday (clamp_to_workday dt) = clamp_to_workday dt.
Proof.
  split; [reflexivity|].
  apply (clamp_to_workday_window
           (combine (mk_date 2025 6 4) (mk_time 19 45 0 0))).
  reflexivity.
Defined.

(** ** More on rounding *)

Lemma round_half_even_Z (x : Q) (k : Z) :
  (x == inject_Z k)%Q -> round_half_even x = k.
Proof.
  intros E. rewrite (round_half_even_compat _ _ E). unfold round_half_even.
  rewrite Qfloor_Z.
  destruct (Qcompare_spec (inject_Z k - inject_Z k) (1 # 2)) as [H | H | H];
    [lra | reflexivity | lra].
Qed.

Lemma pow10_pos (n : nat) : Z.pos (Z.to_pos (10 ^ Z.of_nat n)) = 10 ^ Z.of_nat n.
Proof. apply Z2Pos.id. apply Z.pow_pos_nonneg; lia. Qed.

(** A value that is a whole number of units of [10^-n] is not changed by
    rounding to [n] decimals. *)
Lemma py_round_exact (k : Z) (n : nat) :
  (py_round (k # Z.to_pos (10 ^ Z.of_nat n)) n
   == k # Z.to_pos (10 ^ Z.of_nat n))%Q.
Proof.
  unfold py_round. rewrite Qred_correct.
  rewrite (round_half_even_Z _ k); [reflexivity|].
  unfold Qeq, Qmult, inject_Z; cbn [Qnum Qden]. lia.
Qed.



(** ** More on [business_hours_between] *)

Lemma partial_hours_before_start (t : time) :
  time_us t <= time_us HORA_INICIO -> (partial_hours t == 0)%Q.
Proof.
  intros H. rewrite partial_hours_elapsed. unfold elapsed_hours.
  change (time_us HORA_INICIO) with 28800000000 in *.
  change (time_us HORA_FIN) with 59400000000.
  replace (Z.min (Z.max (time_us t) 28800000000) 59400000000 - 28800000000)
    with 0 by lia.
  reflexivity.
Qed.

Lemma partial_hours_after_end (t : time) :
  time_us HORA_FIN <= time_us t -> (partial_hours t == WORK_HOURS)%Q.
Proof.
  intros H. rewrite partial_hours_elapsed. unfold elapsed_hours.
  change (time_us HORA_INICIO) with 28800000000.
  change (time_us HORA_FIN) with 59400000000 in *.
  replace (Z.min (Z.max (time_us t) 28800000000) 59400000000 - 28800000000)
    with 30600000000 by lia.
  reflexivity.
Qed.

(** On doubles: nothing has elapsed at or before the start of the work
    window. *)
Lemma elapsed_hours_float_before_start (t : time) :
  time_us t <= time_us HORA_INICIO ->
  Binary64.elapsed_hours t = Binary64.zero.
Proof.
  intros Hle. unfold Binary64.elapsed_hours.
  replace (Z.min (Z.max (time_us t) (time_us HORA_INICIO)) (time_us HORA_FIN)
           - time_us HORA_INICIO) with 0.
  - reflexivity.
  - change (time_us HORA_FIN) with 59400000000.
    change (time_us HORA_INICIO) with 28800000000 in *. lia.
Qed.

(** X7. When the end instant falls on the start date itself no full day is
    counted: the result is the rounded partial contribution of that day,
    computed on doubles.  It is 0 when the end time is at or before 08:00,
    and 0 when the day is not a business day. *)
Theorem bhb_same_day (H : gset string) (d : date) (t : time) :
  valid_date d = true -> valid_time t = true ->
  Binary64.business_hours_between H (Some d) (Some (combine d t))
  = Ok (Binary64.py_round
          (if is_business_day H d
           then Binary64.add_partial Binary64.zero t
           else Binary64.zero) 2)
  /\ (time_ltb HORA_INICIO t = false ->
      Binary64.business_hours_between H (Some d) (Some (combine d t))
      = Ok Binary64.zero)
  /\ (is_business_day H d = false ->
      Binary64.business_hours_between H (Some d) (Some (combine d t))
      = Ok Binary64.zero).
Proof.
  intros Hd Ht.
  assert (Hv : valid_datetime (combine d t) = true)
    by (apply valid_datetime_fields; split; assumption).
  rewrite (bhb_float_days H d (combine d t) [] Hd Hv (days_from_nil d)).
  cbn [dt_date dt_time].
  change (Binary64.full_day_hours H []) with Binary64.zero.
  split; [reflexivity|]. split.
  - intros Hle. rewrite (time_ltb_us _ _ valid_time_HORA_INICIO Ht) in Hle.
    destruct (is_business_day H d); [|reflexivity].
    unfold Binary64.add_partial.
    rewrite elapsed_hours_float_before_start by lia. reflexivity.
  - intros ->. reflexivity.
Qed.

Lemma bhb_same_day_witness :
  valid_date (mk_date 2025 6 4) = true /\ valid_time (mk_time 7 30 0 0) = true
  /\ Binary64.business_hours_between ∅ (Some (mk_date 2025 6 4))
       (Some (combine (mk_date 2025 6 4) (mk_time 7 30 0 0)))
     = Ok Binary64.zero.
Proof.
  split; [reflexivity|]. split; [reflexivity|].
  apply (proj1 (proj2 (bhb_same_day ∅ (mk_date 2025 6 4) (mk_time 7 30 0 0)
                         eq_refl eq_refl))).
  reflexivity.
Defined.

Lemma full_day_hours_length (H : gset string) (l : list date) :
  (full_day_hours H l
   == WORK_HOURS
      * inject_Z (Z.of_nat (length (List.filter (is_business_day H) l))))%Q.
Proof.
  induction l as [|d l IH]; [reflexivity|].
  rewrite full_day_hours_cons. cbn [List.filter].
  destruct (is_business_day H d); [|exact IH].
  cbn [length]. rewrite IH, Nat2Z.inj_succ, <- Z.add_1_r, inject_Z_plus.
  unfold WORK_HOURS. change (inject_Z 1) with 1%Q. lra.
Qed.



Lemma work_hours_hundredths (k : Z) :
  (WORK_HOURS * inject_Z k == (850 * k) # Z.to_pos (10 ^ Z.of_nat 2))%Q.
Proof.
  unfold WORK_HOURS, Qeq, Qmult, inject_Z; cbn [Qnum Qden].
  change (Z.pos (Z.to_pos (10 ^ Z.of_nat 2))) with 100. lia.
Qed.







Lemma date_add_day_valid (d d' : date) :
  valid_date d = true -> date_add_day d = Ok d' ->
  valid_date d' = true /\ date_ltb d d' = true.
Proof.
  intros Hv Hadd.
  assert (Hx : exists x, valid_date x = true /\ date_ltb d x = true).
  { exists (mk_date 9999 12 31). split; [reflexivity|].
    pose proof Hv as (Hy & Hm & Hd)%valid_date_fields.
    pose proof (days_in_month_bounds (year d) _ Hm) as Hb.
    unfold date_add_day, MAXYEAR in Hadd. unfold date_ltb.
    cbn [year month day].
    destruct (day d + 1 <=? days_in_month (year d) (month d)) eqn:E1; [lia|].
    destruct (month d + 1 <=? 12) eqn:E2; [lia|].
    destruct (year d + 1 <=? 9999) eqn:E3; [lia | discriminate]. }
  destruct Hx as (x & Hvx & Hlt).
  destruct (date_add_day_ok d x Hv Hvx Hlt) as (d2 & E & Hv2 & Hlt2 & _).
  rewrite Hadd in E. injection E as <-. auto.
Qed.

(** X10. No hours accrue outside the work window: from a start date not
    after the day [e], an end instant at or after 16:30 of [e] and an end
    instant at or before 08:00 of the day after [e] give the same result. *)
Theorem bhb_overnight (H : gset string) (d e next : date) (t1 t2 : time) :
  valid_date d = true -> valid_date e = true ->
  valid_time t1 = true -> valid_time t2 = true ->
  date_leb d e = true -> date_add_day e = Ok next ->
  time_ltb t1 HORA_FIN = false -> time_ltb HORA_INICIO t2 = false ->
  business_hours_between H (Some d) (Some (combine e t1))
  = business_hours_between H (Some d) (Some (combine next t2)).
Proof.
  intros Hd He Ht1 Ht2 Hle Hadd Hlate Hearly.
  rewrite (time_ltb_us _ _ Ht1 valid_time_HORA_FIN) in Hlate.
  rewrite (time_ltb_us _ _ valid_time_HORA_INICIO Ht2) in Hearly.
  destruct (date_add_day_valid e next He Hadd) as [Hn Hlt].
  destruct (days_from_exists d e Hd He Hle) as [l Hl].
  assert (Hstep : days_from e next [e])
    by (econstructor; [exact Hlt | exact Hadd | constructor]).
  pose proof (days_from_app _ _ _ _ _ Hl Hstep) as Hl2.
  rewrite (bhb_days H d (combine e t1) l Hd He Hl).
  rewrite (bhb_days H d (combine next t2) (l ++ [e]) Hd Hn Hl2).
  rewrite (bhb_value H d (combine e t1) l)
    by (apply valid_datetime_fields; split; assumption).
  rewrite (bhb_value H d (combine next t2) (l ++ [e]))
    by (apply valid_datetime_fields; split; assumption).
  cbn [dt_date dt_time]. f_equal. apply py_round_compat.
  rewrite full_day_hours_app, (full_day_hours_cons H e []).
  assert (P1 : (partial_hours t1 == WORK_HOURS)%Q)
    by (apply partial_hours_after_end; lia).
  assert (P2 : (partial_hours t2 == 0)%Q)
    by (apply partial_hours_before_start; lia).
  assert (E0 : (full_day_hours H [] == 0)%Q) by reflexivity.
  destruct (is_business_day H e), (is_business_day H next); lra.
Qed.

Lemma bhb_overnight_witness :
  date_add_day (mk_date 2025 6 3) = Ok (mk_date 2025 6 4)
  /\ business_hours_between ∅ (Some (mk_date 2025 6 2))
       (Some (combine (mk_date 2025 6 3) (mk_time 18 0 0 0)))
     = business_hours_between ∅ (Some (mk_date 2025 6 2))
         (Some (combine (mk_date 2025 6 4) (mk_time 6 0 0 0))).
Proof.
  split; [reflexivity|].
  apply (bhb_overnight ∅ (mk_date 2025 6 2) (mk_date 2025 6 3)
           (mk_date 2025 6 4) (mk_time 18 0 0 0) (mk_time 6 0 0 0));
    reflexivity.
Defined.

(** ** More on [real_hours], [expected_hours] and [kpis_fila] *)

Lemma parse_fecha_truthy (s : option string) (d : date) :
  parse_fecha s = Some d -> falsy s = false.
Proof.
  destruct s as [t|]; [|discriminate]. cbn [parse_fecha falsy].
  destruct (String.eqb t ""); [discriminate | reflexivity].
Qed.

(** X11. For a phase with an entry and an exit date, entry not after exit,
    [real_hours] is 8.5 hours for each business day from the entry date to
    the exit date, both included, whatever the current instant; with no
    readable entry date it is 0. *)
Theorem real_hours_closed (H : gset string) (now : datetime)
  (f_ent f_sal : option string) :
  (parse_fecha f_ent = None -> real_hours H now f_ent f_sal = Ok 0%Q)
  /\ forall de ds,
       parse_fecha f_ent = Some de -> parse_fecha f_sal = Some ds ->
       date_leb de ds = true ->
       exists (days : list date) (h : Q),
         NoDup days
         /\ (forall d, d ∈ days <->
               valid_date d = true /\ date_leb de d = true
               /\ date_leb d ds = true)
         /\ real_hours H now f_ent f_sal = Ok h
         /\ (h == WORK_HOURS
                  * inject_Z (Z.of_nat
                                (length (List.filter (is_business_day H) days))))%Q.
Proof.
  split; [intros E; unfold real_hours; now rewrite E|].
  intros de ds Ee Es Hle.
  pose proof (parse_fecha_valid _ _ Ee) as Hve.
  pose proof (parse_fecha_valid _ _ Es) as Hvs.
  destruct (days_from_exists de ds Hve Hvs Hle) as [l Hl].
  assert (Hv : valid_datetime (combine ds HORA_FIN) = true)
    by (apply valid_datetime_fields; split; [exact Hvs | reflexivity]).
  exists (l ++ [ds]). eexists. split; [|split; [|split]].
  - apply NoDup_app. split; [eapply days_from_NoDup; eassumption|]. split.
    + intros x Hx ->%list_elem_of_singleton.
      destruct (days_from_sound _ _ _ Hl Hve Hvs ds Hx) as (_ & _ & Habs).
      rewrite date_ltb_irrefl in Habs. discriminate.
    + apply NoDup_singleton.
  - intros d. rewrite elem_of_app, list_elem_of_singleton. split.
    + intros [Hd | ->].
      * destruct (days_from_sound _ _ _ Hl Hve Hvs d Hd) as (? & ? & ?).
        repeat split; auto. apply date_leb_spec. now left.
      * repeat split; auto. apply date_leb_spec. now right.
    + intros (Hvd & H1 & [Hlt | ->]%date_leb_spec); [left | now right].
      eapply days_from_complete; eassumption.
  - unfold real_hours. rewrite Ee, (parse_fecha_truthy _ _ Es), Es.
    rewrite (bhb_days H de (combine ds HORA_FIN) l Hve Hvs Hl).
    rewrite (bhb_value H de (combine ds HORA_FIN) l Hv). reflexivity.
  - cbn [dt_date dt_time].
    set (c := Z.of_nat (length (List.filter (is_business_day H) (l ++ [ds])))).
    assert (Hx : (full_day_hours H l
                  + (if is_business_day H ds then partial_hours HORA_FIN else 0)
                  == WORK_HOURS * inject_Z c)%Q).
    { subst c. rewrite List.filter_app, length_app, Nat2Z.inj_add.
      rewrite inject_Z_plus, full_day_hours_length.
      assert (P : (partial_hours HORA_FIN == WORK_HOURS)%Q)
        by (apply partial_hours_after_end; lia).
      cbn [List.filter]. unfold WORK_HOURS in *.
      destruct (is_business_day H ds); cbn [length Z.of_nat];
        [change (inject_Z (Z.of_nat 1)) with 1%Q
        |change (inject_Z (Z.of_nat 0)) with 0%Q]; lra. }
    rewrite (py_round_compat _ ((850 * c) # Z.to_pos (10 ^ Z.of_nat 2)))
      by (rewrite Hx; apply work_hours_hundredths).
    rewrite py_round_exact. symmetry. apply work_hours_hundredths.
Qed.

Lemma real_hours_closed_witness :
  parse_fecha (Some "2/6/2025") = Some (mk_date 2025 6 2)
  /\ parse_fecha (Some "2025-06-06") = Some (mk_date 2025 6 6)
  /\ exists (days : list date) (h : Q),
       NoDup days
       /\ (forall d, d ∈ days <->
             valid_date d = true /\ date_leb (mk_date 2025 6 2) d = true
             /\ date_leb d (mk_date 2025 6 6) = true)
       /\ real_hours ∅ (combine (mk_date 2030 1 1) (mk_time 0 0 0 0))
            (Some "2/6/2025") (Some "2025-06-06") = Ok h
       /\ (h == WORK_HOURS
                * inject_Z (Z.of_nat
                              (length (List.filter (is_business_day ∅) days))))%Q.
Proof.
  split; [reflexivity|]. split; [reflexivity|].
  apply (proj2 (real_hours_closed ∅
                  (combine (mk_date 2030 1 1) (mk_time 0 0 0 0))
                  (Some "2/6/2025") (Some "2025-06-06"))
           (mk_date 2025 6 2) (mk_date 2025 6 6));
    reflexivity.
Defined.





(** From the limit on there are no expected hours. *)
Example expected_hours_overflow :
  expected_hours (Some "Entregas") (PyInt FLOAT_LIMIT) = Raise int_too_large
  /\ exists h,
       expected_hours (Some "Entregas") (PyInt (FLOAT_LIMIT - 1)) = Ok h.
Proof.
  rewrite !expected_hours_unit_count. cbn [unit_count res_bind].
  rewrite !int_to_float_cases.
  split; [reflexivity | eexists; reflexivity].
Qed.





(** ** A week of work *)

Lemma weekday_add_day (d d' : date) :
  valid_date d = true -> date_add_day d = Ok d' ->
  valid_date d' = true /\ weekday d' = (weekday d + 1) mod 7.
Proof.
  intros Hv Hadd. destruct (date_add_day_valid d d' Hv Hadd) as [Hv' Hlt].
  split; [exact Hv'|].
  destruct (date_add_day_ok d d' Hv Hv' Hlt) as (d2 & E & _ & _ & Hord & _).
  rewrite Hadd in E. injection E as <-.
  unfold weekday. rewrite Hord. Z.to_euclidean_division_equations. lia.
Qed.

Lemma is_business_day_empty (d : date) :
  is_business_day ∅ d = (weekday d <? 5).
Proof.
  unfold is_business_day. destruct (5 <=? weekday d) eqn:E; [lia|].
  destruct (bool_decide (strftime_ymd d ∈ (∅ : gset string))) eqn:B; [|lia].
  apply bool_decide_eq_true in B. now apply not_elem_of_empty in B.
Qed.

(** The weekdays of the days the loop meets follow one another. *)
Lemma weekdays_from (cur stop : date) (l : list date) :
  days_from cur stop l -> valid_date cur = true ->
  map weekday l
  = map (fun i => (weekday cur + Z.of_nat i) mod 7) (seq 0 (length l)).
Proof.
  induction 1 as [d | d d' stop l Hlt Hadd Hl IH]; intros Hv; [reflexivity|].
  destruct (weekday_add_day d d' Hv Hadd) as [Hv' Hw].
  cbn [map length seq]. f_equal.
  - pose proof (weekday_range d). rewrite Z.add_0_r, Z.mod_small; lia.
  - rewrite (IH Hv'), <- seq_shift, map_map. apply map_ext. intros i.
    rewrite Hw, Nat2Z.inj_succ. Z.to_euclidean_division_equations. lia.
Qed.

Lemma business_days_weekdays (l : list date) :
  length (List.filter (is_business_day ∅) l)
  = length (List.filter (fun w => w <? 5) (map weekday l)).
Proof.
  induction l as [|d l IH]; [reflexivity|]. cbn [List.filter map].
  rewrite is_business_day_empty.
  destruct (weekday d <? 5); cbn [length]; now rewrite IH.
Qed.

(** Seven days in a row hold five business days when there are no
    holidays. *)
Lemma week_business_days (cur stop : date) (l : list date) :
  days_from cur stop l -> valid_date cur = true -> length l = 7%nat ->
  length (List.filter (is_business_day ∅) l) = 5%nat.
Proof.
  intros Hl Hv Hlen. rewrite business_days_weekdays, (weekdays_from _ _ _ Hl Hv).
  rewrite Hlen. pose proof (weekday_range cur) as Hw.
  assert (Hc : weekday cur = 0 \/ weekday cur = 1 \/ weekday cur = 2
               \/ weekday cur = 3 \/ weekday cur = 4 \/ weekday cur = 5
               \/ weekday cur = 6) by lia.
  repeat (destruct Hc as [-> | Hc]; [reflexivity|]). rewrite Hc. reflexivity.
Qed.

Lemma toordinal_leb (a b : date) :
  valid_date a = true -> valid_date b = true ->
  toordinal a <= toordinal b -> date_leb a b = true.
Proof.
  intros Ha Hb Hord. destruct (date_leb a b) eqn:E; [reflexivity|].
  assert (Hlt : date_ltb b a = true).
  { unfold date_leb, date_ltb, date_eqb in *. lia. }
  destruct (days_from_exists b a Hb Ha) as [l Hl];
    [apply date_leb_spec; now left|].
  pose proof (days_from_ordinal _ _ _ Hl Hb Ha) as Ho.
  destruct (days_from_lt_cons _ _ _ Hl Hlt) as [l' ->].
  cbn [length] in Ho. lia.
Qed.

(** X14. With no holidays, any seven days in a row are worth 42.5 hours:
    from a start date to an end instant seven days later, at or before
    08:00, the result is 42.5 whatever the weekday of the start. *)
Theorem bhb_week (d d7 : date) (t : time) :
  valid_date d = true -> valid_date d7 = true -> valid_time t = true ->
  toordinal d7 = toordinal d + 7 ->
  time_ltb HORA_INICIO t = false ->
  business_hours_between ∅ (Some d) (Some (combine d7 t)) = Ok (85 # 2).
Proof.
  intros Hd Hd7 Ht Hord Hearly.
  rewrite (time_ltb_us _ _ valid_time_HORA_INICIO Ht) in Hearly.
  destruct (days_from_exists d d7 Hd Hd7) as [l Hl];
    [apply toordinal_leb; auto; lia|].
  pose proof (days_from_ordinal _ _ _ Hl Hd Hd7) as Ho.
  assert (Hlen : length l = 7%nat) by lia.
  rewrite (bhb_days ∅ d (combine d7 t) l Hd Hd7 Hl).
  rewrite (bhb_value ∅ d (combine d7 t) l)
    by (apply valid_datetime_fields; split; assumption).
  cbn [dt_date dt_time].
  assert (Hx : (full_day_hours ∅ l
                + (if is_business_day ∅ d7 then partial_hours t else 0)
                == 4250 # Z.to_pos (10 ^ Z.of_nat 2))%Q).
  { rewrite full_day_hours_length, (week_business_days _ _ _ Hl Hd Hlen).
    assert (P : (partial_hours t == 0)%Q)
      by (apply partial_hours_before_start; lia).
    destruct (is_business_day ∅ d7); rewrite ?P; reflexivity. }
  rewrite (py_round_compat _ _ _ Hx). reflexivity.
Qed.

Lemma bhb_week_witness :
  toordinal (mk_date 2025 1 2) = toordinal (mk_date 2024 12 26) + 7
  /\ business_hours_between ∅ (Some (mk_date 2024 12 26))
       (Some (combine (mk_date 2025 1 2) (mk_time 8 0 0 0))) = Ok (85 # 2).
Proof.
  split; [reflexivity|].
  apply (bhb_week (mk_date 2024 12 26) (mk_date 2025 1 2) (mk_time 8 0 0 0));
    reflexivity.
Defined.
